(** * setup-buildx-action: the setup and cleanup entry point

    A shallow embedding of [run] and [cleanup] of src/main.ts (lines
    1-131 of the file).  The two functions drive external collaborators:
    the docker CLI through @actions/exec, the workflow commands of
    @actions/core, and the helper modules buildx, context, stateHelper and
    util, none of which is among the sources.  Every call to a
    collaborator is recorded as an [event]; the answers of the outside
    world are supplied by a [World] of oracles, each of which may depend
    on everything that happened before the call.  An action is a function
    from the trace so far to the events it adds and its outcome, a value
    or a thrown error. *)

From Stdlib Require Import String Ascii List Bool ZArith Lia.
Import ListNotations.
Open Scope string_scope.
Open Scope list_scope.

(** ** JavaScript strings *)

(** Truthiness of a string used as a condition: only the empty string is
    falsy. *)
Definition truthy (s : string) : bool := negb (s =? "").

(** [s.includes(sub)]: [sub] occurs somewhere in [s]. *)
Fixpoint includes (s sub : string) : bool :=
  String.prefix sub s ||
  match s with
  | EmptyString => false
  | String _ s' => includes s' sub
  end.

(** [String.prototype.trim] removes the white space and the line
    terminators of Unicode at both ends of a string.  It belongs to the
    host (see [on_trim] below); what follows is its reading of a text
    whose white space is ASCII (TAB, LF, VT, FF, CR and SPACE), which the
    sample worlds use. *)
Definition is_space (c : ascii) : bool :=
  let n := nat_of_ascii c in
  ((9 <=? n) && (n <=? 13) || (n =? 32))%nat.

Fixpoint trimStart (s : string) : string :=
  match s with
  | EmptyString => EmptyString
  | String c s' => if is_space c then trimStart s' else s
  end.

Fixpoint trimEnd (s : string) : string :=
  match s with
  | EmptyString => EmptyString
  | String c s' =>
      match trimEnd s' with
      | EmptyString => if is_space c then EmptyString else String c EmptyString
      | t => String c t
      end
  end.

Definition trim (s : string) : string := trimEnd (trimStart s).

(** [arr.push(x1, ..., xn)] on an array held as a list. *)
Definition push (arr items : list string) : list string := arr ++ items.

(** ** Outcome of an awaited call: a value, or a thrown [Error] of which
    only [message] is ever read (line 93). *)
Inductive result (A : Type) : Type :=
| Ok (a : A)
| Throw (message : string).
Arguments Ok {A} a.
Arguments Throw {A} message.

(** ** Observable actions

    One constructor per collaborator call made by main.ts, with the
    arguments of the call. *)
Inductive event : Type :=
| StartGroup (title : string)
| EndGroup
| Info (message : string)
| Warning (message : string)
| SetFailed (message : string)
| Exec (commandLine : string) (args : list string)
| GetExecOutput (commandLine : string) (args : list string)
| GetInputs
| SetOutput (key : string) (value : option string)
| Build (inputBuildRef dockerConfigHome : string)
| Install (inputVersion dockerConfigHome : string)
| IsAvailable
| GetVersion
| Inspect (name : string)
| GetBuildKitVersion (containerID : string)
| SetBuilderName (builderName : string)
| SetContainerName (containerName : string)
| SetDebug (debug : string).

Definition trace : Type := list event.

(** ** context.ts *)
Module context.

(** Modelled from the spec: the [Inputs] record of context.ts, which is
    not among the sources; one field per property that main.ts reads. *)
Record Inputs : Type := {
  version : string;
  driver : string;
  driverOpts : list string;
  buildkitdFlags : string;
  endpoint : string;
  config : string;
  use : bool;
  install : bool;
  builderName : string
}.

(** Modelled from the spec: [asyncForEach] of context.ts, which is not
    among the sources.  The callback is awaited for each element in
    turn, in array order; here the callback acts on the array being
    built. *)
Definition asyncForEach {A S : Type} (array : list A)
    (callback : A -> S -> S) (s : S) : S :=
  fold_left (fun acc a => callback a acc) array s.

End context.

(** ** buildx.ts *)
Module buildx.

(** Modelled from the spec: the [Builder] record of buildx.ts, which is
    not among the sources.  [node_flags] may be undefined (main.ts reads
    it through [?.]), the other fields are strings. *)
Record Builder : Type := {
  name : string;
  driver : string;
  node_name : string;
  node_endpoint : string;
  node_status : string;
  node_flags : option string;
  node_platforms : string
}.

(** Modelled from the spec: the reading of one decimal digit, for the
    semantic versions compared by [satisfies] of buildx.ts, which is not
    among the sources. *)
Definition digit (c : ascii) : option nat :=
  let n := nat_of_ascii c in
  if ((48 <=? n) && (n <=? 57))%nat then Some (n - 48)%nat else None.

(** Modelled from the spec: the number written by the digits of [s],
    after [acc]. *)
Fixpoint number_from (s : string) (acc : nat) : option nat :=
  match s with
  | EmptyString => Some acc
  | String c s' =>
      match digit c with
      | Some d => number_from s' (10 * acc + d)%nat
      | None => None
      end
  end.

(** Modelled from the spec: a non-empty run of digits, as a number. *)
Definition number (s : string) : option nat :=
  match s with
  | EmptyString => None
  | _ => number_from s 0
  end.

(** Modelled from the spec: the fields of a version, split at every dot;
    [cur] holds the field being read. *)
Fixpoint fields (s : string) (cur : string) : list string :=
  match s with
  | EmptyString => [cur]
  | String c s' =>
      if Ascii.eqb c "."%char then cur :: fields s' EmptyString
      else fields s' (cur ++ String c EmptyString)
  end.

(** Modelled from the spec: the semantic version [major.minor.patch]
    written by [s], if [s] is one. *)
Definition semver (s : string) : option (nat * nat * nat) :=
  match fields s EmptyString with
  | [a; b; c] =>
      match number a, number b, number c with
      | Some x, Some y, Some z => Some (x, y, z)
      | _, _, _ => None
      end
  | _ => None
  end.

(** Modelled from the spec: [semver_le a b] says that [a] is not greater
    than [b], by major, then minor, then patch. *)
Definition semver_le (a b : nat * nat * nat) : bool :=
  let '(a1, a2, a3) := a in
  let '(b1, b2, b3) := b in
  ((a1 <? b1) || ((a1 =? b1) && ((a2 <? b2) || ((a2 =? b2) && (a3 <=? b3)))))%nat.

(** Modelled from the spec: [satisfies] of buildx.ts, which is not among
    the sources: [satisfies V ">=a.b.c"] holds iff the semantic version
    parsed from [V] is not less than [a.b.c]. *)
Definition satisfies (version range : string) : bool :=
  match range with
  | String ">" (String "=" bound) =>
      match semver version, semver bound with
      | Some v, Some b => semver_le b v
      | _, _ => false
      end
  | _ => false
  end.

End buildx.

(** ** state-helper.ts *)
Module stateHelper.

(** Modelled from the spec: the process state of state-helper.ts, which
    is not among the sources.  It holds the post-phase flag, the debug
    flag, the builder name and the container name; a field that was never
    saved reads as [false] or as the empty string. *)
Record State : Type := {
  IsPost : bool;
  IsDebug : bool;
  builderName : string;
  containerName : string
}.

(** Modelled from the spec: the state seen by the setup phase, in which
    nothing is saved yet. *)
Definition initial : State :=
  {| IsPost := false; IsDebug := false; builderName := ""; containerName := "" |}.

(** Modelled from the spec: the effect of one call on the saved state.
    Only the three setters of state-helper.ts write to it. *)
Definition save (st : State) (e : event) : State :=
  match e with
  | SetBuilderName n =>
      {| IsPost := IsPost st; IsDebug := IsDebug st;
         builderName := n; containerName := containerName st |}
  | SetContainerName n =>
      {| IsPost := IsPost st; IsDebug := IsDebug st;
         builderName := builderName st; containerName := n |}
  | SetDebug d =>
      {| IsPost := IsPost st; IsDebug := d =? "true";
         builderName := builderName st; containerName := containerName st |}
  | _ => st
  end.

(** Modelled from the spec: the state that the cleanup phase of a job
    reads back after a setup phase with trace [t]: every saved field, and
    the post-phase flag raised by the host. *)
Definition persisted (t : trace) : State :=
  let st := fold_left save t initial in
  {| IsPost := true; IsDebug := IsDebug st;
     builderName := builderName st; containerName := containerName st |}.

End stateHelper.

(** ** @actions/exec: what [getExecOutput] resolves to. *)
Record ExecOutput : Type := {
  exitCode : Z;
  stdout : string;
  stderr : string
}.

(** ** The outside world

    Pure collaborators are plain functions.  Effectful ones receive the
    trace of everything done before the call, so the same command may
    answer differently at different times.  [exec.exec] rejects on a
    non-zero exit code.  [exec.getExecOutput] is only called with
    [ignoreReturnCode: true]: a command that ran resolves with its exit
    code whatever it is, but the promise may still reject, for instance
    when the command cannot be started. *)
Record World : Type := {
  on_DOCKER_CONFIG : option string;
  (** [path.join(os.homedir(), '.docker')] *)
  on_home_docker : string;
  (** [String.prototype.trim] *)
  on_trim : string -> string;
  on_isDebug : bool;
  on_stringify : buildx.Builder -> string;
  on_isValidUrl : string -> bool;
  on_satisfies : string -> string -> bool;
  on_getInputs : result context.Inputs;
  on_exec : trace -> string -> list string -> result unit;
  on_getExecOutput : trace -> string -> list string -> result ExecOutput;
  on_build : trace -> string -> string -> result unit;
  on_install : trace -> string -> string -> result unit;
  on_isAvailable : trace -> result bool;
  on_getVersion : trace -> result string;
  on_inspect : trace -> string -> result buildx.Builder;
  on_getBuildKitVersion : trace -> string -> result string
}.

(** ** The monad of actions

    An action reads the trace so far, and yields the events it adds and
    its outcome.  Nothing can be removed from the trace. *)
Definition M (A : Type) : Type := trace -> trace * result A.

Definition ret {A : Type} (a : A) : M A := fun _ => ([], Ok a).

Definition bind {A B : Type} (m : M A) (f : A -> M B) : M B :=
  fun h =>
    match m h with
    | (e1, Ok a) =>
        match f a (h ++ e1) with
        | (e2, r) => (e1 ++ e2, r)
        end
    | (e1, Throw msg) => (e1, Throw msg)
    end.

(** [try { m } catch (error) { handler(error.message) }] *)
Definition try_catch (m : M unit) (handler : string -> M unit) : M unit :=
  fun h =>
    match m h with
    | (e1, Ok a) => (e1, Ok a)
    | (e1, Throw msg) =>
        match handler msg (h ++ e1) with
        | (e2, r) => (e1 ++ e2, r)
        end
    end.

(** A call that cannot fail and returns nothing. *)
Definition emit (e : event) : M unit := fun _ => ([e], Ok tt).

(** A call answered by the world. *)
Definition ask {A : Type} (e : event) (answer : trace -> result A) : M A :=
  fun h => ([e], answer h).

Declare Scope action_scope.
Delimit Scope action_scope with action.
Notation "x <- m ;; k" := (bind m (fun x => k))
  (at level 61, m at next level, right associativity) : action_scope.
Notation "m ;; k" := (bind m (fun _ => k))
  (at level 61, right associativity) : action_scope.
Open Scope action_scope.

(** ** main.ts *)
Section Main.

Variable W : World.

(** *** Collaborator calls *)

Definition core_startGroup (title : string) : M unit := emit (StartGroup title).
Definition core_endGroup : M unit := emit EndGroup.
Definition core_info (message : string) : M unit := emit (Info message).
Definition core_warning (message : string) : M unit := emit (Warning message).
Definition core_setFailed (message : string) : M unit := emit (SetFailed message).

Definition exec_exec (commandLine : string) (args : list string) : M unit :=
  ask (Exec commandLine args) (fun h => on_exec W h commandLine args).

(** [exec.getExecOutput(commandLine, args, {ignoreReturnCode: true})] *)
Definition exec_getExecOutput (commandLine : string) (args : list string)
    : M ExecOutput :=
  ask (GetExecOutput commandLine args)
      (fun h => on_getExecOutput W h commandLine args).

Definition context_getInputs : M context.Inputs :=
  ask GetInputs (fun _ => on_getInputs W).

Definition context_setOutput (key : string) (value : option string) : M unit :=
  emit (SetOutput key value).

Definition buildx_build (inputBuildRef dockerConfigHome : string) : M unit :=
  ask (Build inputBuildRef dockerConfigHome)
      (fun h => on_build W h inputBuildRef dockerConfigHome).

Definition buildx_install (inputVersion dockerConfigHome : string) : M unit :=
  ask (Install inputVersion dockerConfigHome)
      (fun h => on_install W h inputVersion dockerConfigHome).

Definition buildx_isAvailable : M bool := ask IsAvailable (on_isAvailable W).

Definition buildx_getVersion : M string := ask GetVersion (on_getVersion W).

Definition buildx_inspect (name : string) : M buildx.Builder :=
  ask (Inspect name) (fun h => on_inspect W h name).

Definition buildx_getBuildKitVersion (containerID : string) : M string :=
  ask (GetBuildKitVersion containerID)
      (fun h => on_getBuildKitVersion W h containerID).

Definition stateHelper_setBuilderName (builderName : string) : M unit :=
  emit (SetBuilderName builderName).
Definition stateHelper_setContainerName (containerName : string) : M unit :=
  emit (SetContainerName containerName).
Definition stateHelper_setDebug (debug : string) : M unit :=
  emit (SetDebug debug).

(** *** run (lines 10-95) *)

(** Line 18: [process.env.DOCKER_CONFIG || path.join(os.homedir(), '.docker')] *)
Definition dockerConfigHome : string :=
  match on_DOCKER_CONFIG W with
  | Some d => if truthy d then d else on_home_docker W
  | None => on_home_docker W
  end.

(** Lines 20-28: make sure a buildx binary is there. *)
Definition provision (inputs : context.Inputs) : M unit :=
  if on_isValidUrl W (context.version inputs) then
    core_startGroup "Build and install buildx";;
    buildx_build (context.version inputs) dockerConfigHome;;
    core_endGroup
  else
    available <- buildx_isAvailable;;
    if negb available || truthy (context.version inputs) then
      core_startGroup "Download and install buildx";;
      buildx_install
        (if truthy (context.version inputs) then context.version inputs else "latest")
        dockerConfigHome;;
      core_endGroup
    else ret tt.

(** Line 31 *)
Definition builderName (inputs : context.Inputs) : string :=
  if context.driver inputs =? "docker" then "default"
  else "builder-" ++ context.builderName inputs.

(** Lines 37-54: the arguments of [docker buildx create]. *)
Definition createArgs (builderName : string) (inputs : context.Inputs)
    (buildxVersion : string) : list string :=
  let createArgs :=
    ["buildx"; "create"; "--name"; builderName; "--driver"; context.driver inputs] in
  let createArgs :=
    if on_satisfies W buildxVersion ">=0.3.0" then
      let createArgs :=
        context.asyncForEach (context.driverOpts inputs)
          (fun driverOpt createArgs => push createArgs ["--driver-opt"; driverOpt])
          createArgs in
      if truthy (context.buildkitdFlags inputs)
      then push createArgs ["--buildkitd-flags"; context.buildkitdFlags inputs]
      else createArgs
    else createArgs in
  let createArgs :=
    if context.use inputs then push createArgs ["--use"] else createArgs in
  let createArgs :=
    if truthy (context.endpoint inputs)
    then push createArgs [context.endpoint inputs] else createArgs in
  let createArgs :=
    if truthy (context.config inputs)
    then push createArgs ["--config"; context.config inputs] else createArgs in
  createArgs.

(** Lines 59-62: the arguments of [docker buildx inspect --bootstrap]. *)
Definition bootstrapArgs (builderName buildxVersion : string) : list string :=
  let bootstrapArgs := ["buildx"; "inspect"; "--bootstrap"] in
  if on_satisfies W buildxVersion ">=0.4.0"
  then push bootstrapArgs ["--builder"; builderName]
  else bootstrapArgs.

(** Line 89: [core.isDebug() || builder.node_flags?.includes('--debug')] *)
Definition debugRequested (builder : buildx.Builder) : bool :=
  on_isDebug W ||
  match buildx.node_flags builder with
  | Some flags => includes flags "--debug"
  | None => false
  end.

(** Lines 12-91: the body of the [try] block. *)
Definition setup : M unit :=
  core_startGroup "Docker info";;
  exec_exec "docker" ["version"];;
  exec_exec "docker" ["info"];;
  core_endGroup;;
  inputs <- context_getInputs;;
  provision inputs;;
  buildxVersion <- buildx_getVersion;;
  let builderName := builderName inputs in
  context_setOutput "name" (Some builderName);;
  stateHelper_setBuilderName builderName;;
  (if negb (context.driver inputs =? "docker") then
     core_startGroup "Creating a new builder instance";;
     exec_exec "docker" (createArgs builderName inputs buildxVersion);;
     core_endGroup;;
     core_startGroup "Booting builder";;
     exec_exec "docker" (bootstrapArgs builderName buildxVersion);;
     core_endGroup
   else ret tt);;
  (if context.install inputs then
     core_startGroup "Setting buildx as default builder";;
     exec_exec "docker" ["buildx"; "install"];;
     core_endGroup
   else ret tt);;
  core_startGroup "Inspect builder";;
  builder <- buildx_inspect builderName;;
  core_info (on_stringify W builder);;
  context_setOutput "driver" (Some (buildx.driver builder));;
  context_setOutput "endpoint" (Some (buildx.node_endpoint builder));;
  context_setOutput "status" (Some (buildx.node_status builder));;
  context_setOutput "flags" (buildx.node_flags builder);;
  context_setOutput "platforms" (Some (buildx.node_platforms builder));;
  core_endGroup;;
  (if context.driver inputs =? "docker-container" then
     stateHelper_setContainerName ("buildx_buildkit_" ++ buildx.node_name builder);;
     core_startGroup "BuildKit version";;
     v <- buildx_getBuildKitVersion ("buildx_buildkit_" ++ buildx.node_name builder);;
     core_info v;;
     core_endGroup
   else ret tt);;
  (if debugRequested builder then stateHelper_setDebug "true" else ret tt).

Definition run : M unit := try_catch setup core_setFailed.

(** *** cleanup (lines 97-125)

    Nothing catches a rejection of [exec.getExecOutput]: the callback of
    [then] is skipped, the [await] throws, and so does [cleanup]. *)

(** Lines 104-108 and 118-122: the [then] callback. *)
Definition warnOnFailure (res : ExecOutput) : M unit :=
  if (0 <? String.length (stderr res))%nat && negb (exitCode res =? 0)%Z
  then core_warning (on_trim W (stderr res))
  else ret tt.

Definition cleanup (st : stateHelper.State) : M unit :=
  (if stateHelper.IsDebug st && (0 <? String.length (stateHelper.containerName st))%nat then
     core_startGroup "BuildKit container logs";;
     res <- exec_getExecOutput "docker" ["logs"; stateHelper.containerName st];;
     warnOnFailure res;;
     core_endGroup
   else ret tt);;
  (if (0 <? String.length (stateHelper.builderName st))%nat then
     core_startGroup "Removing builder";;
     res <- exec_getExecOutput "docker" ["buildx"; "rm"; stateHelper.builderName st];;
     warnOnFailure res;;
     core_endGroup
   else ret tt).

(** Lines 127-131 *)
Definition main (st : stateHelper.State) : M unit :=
  if negb (stateHelper.IsPost st) then run else cleanup st.

End Main.

(** ** The two phases of one job *)

(** The first invocation: nothing saved, empty trace. *)
Definition setup_phase (W : World) : trace :=
  fst (main W stateHelper.initial []).

(** The second invocation of the same entry point, by the host, with the
    state saved by the first. *)
Definition cleanup_phase (W : World) : trace :=
  fst (main W (stateHelper.persisted (setup_phase W)) []).

(** ** Sample worlds *)

Definition sample_builder (flags : option string) : buildx.Builder :=
  {| buildx.name := "builder-ci";
     buildx.driver := "docker-container";
     buildx.node_name := "builder-ci0";
     buildx.node_endpoint := "unix:///var/run/docker.sock";
     buildx.node_status := "running";
     buildx.node_flags := flags;
     buildx.node_platforms := "linux/amd64,linux/arm64" |}.

Definition sample_inputs (driver : string) (endpoint config : string)
    : context.Inputs :=
  {| context.version := "";
     context.driver := driver;
     context.driverOpts := ["image=moby/buildkit:master"; "network=host"];
     context.buildkitdFlags := "--allow-insecure-entitlement network.host";
     context.endpoint := endpoint;
     context.config := config;
     context.use := true;
     context.install := false;
     context.builderName := "ci" |}.

(** A world in which buildx [version] is installed, every command
    succeeds, inspection reports [flags], and every cleanup command ends
    with [out]. *)
Definition quiet_world (inputs : context.Inputs) (version : string)
    (flags : option string) (out : ExecOutput) : World :=
  {| on_DOCKER_CONFIG := None;
     on_home_docker := "/home/runner/.docker";
     on_trim := trim;
     on_isDebug := false;
     on_stringify := fun b => buildx.name b;
     on_isValidUrl := fun s => String.prefix "https://" s;
     on_satisfies := buildx.satisfies;
     on_getInputs := Ok inputs;
     on_exec := fun _ _ _ => Ok tt;
     on_getExecOutput := fun _ _ _ => Ok out;
     on_build := fun _ _ _ => Ok tt;
     on_install := fun _ _ _ => Ok tt;
     on_isAvailable := fun _ => Ok true;
     on_getVersion := fun _ => Ok version;
     on_inspect := fun _ _ => Ok (sample_builder flags);
     on_getBuildKitVersion := fun _ _ => Ok "v0.9.0" |}.

(** A command that succeeds and prints nothing. *)
Definition silent : ExecOutput := {| exitCode := 0; stdout := ""; stderr := "" |}.

(** A docker-container builder whose flags declare the debug marker. *)
Definition ci_world : World :=
  quiet_world (sample_inputs "docker-container" "tcp://10.0.0.7:2375" "")
    "0.4.0" (Some "--debug") silent.

(** Inputs with an endpoint and a config path. *)
Definition remote_inputs : context.Inputs :=
  sample_inputs "docker-container" "tcp://10.0.0.7:2375" "/etc/buildkitd.toml".

Definition remote_world : World :=
  quiet_world remote_inputs "0.4.0" None silent.

(** The same inputs on a tool older than 0.3.0. *)
Definition legacy_world : World :=
  quiet_world remote_inputs "0.2.0" None silent.

(** A command that fails without a word on stderr. *)
Definition failing_silently : ExecOutput :=
  {| exitCode := 1; stdout := ""; stderr := "" |}.

Definition mute_world : World :=
  quiet_world remote_inputs "0.4.0" None failing_silently.

(** Inputs for the docker driver. *)
Definition docker_inputs : context.Inputs := sample_inputs "docker" "" "".

Definition docker_world : World :=
  quiet_world docker_inputs "0.4.0" None silent.

(** Inputs for the docker driver that ask for the tool [version]. *)
Definition versioned_inputs (version : string) : context.Inputs :=
  {| context.version := version;
     context.driver := "docker";
     context.driverOpts := [];
     context.buildkitdFlags := "";
     context.endpoint := "";
     context.config := "";
     context.use := false;
     context.install := false;
     context.builderName := "ci" |}.

(** [W], except that asking for the BuildKit version fails. *)
Definition without_buildkit_version (W : World) (message : string) : World :=
  {| on_DOCKER_CONFIG := on_DOCKER_CONFIG W;
     on_home_docker := on_home_docker W;
     on_trim := on_trim W;
     on_isDebug := on_isDebug W;
     on_stringify := on_stringify W;
     on_isValidUrl := on_isValidUrl W;
     on_satisfies := on_satisfies W;
     on_getInputs := on_getInputs W;
     on_exec := on_exec W;
     on_getExecOutput := on_getExecOutput W;
     on_build := on_build W;
     on_install := on_install W;
     on_isAvailable := on_isAvailable W;
     on_getVersion := on_getVersion W;
     on_inspect := on_inspect W;
     on_getBuildKitVersion := fun _ _ => Throw message |}.

Definition broken_world : World :=
  without_buildkit_version ci_world "container not found".

(** [W], except that no failure-ignoring command can be started. *)
Definition without_executor (W : World) (message : string) : World :=
  {| on_DOCKER_CONFIG := on_DOCKER_CONFIG W;
     on_home_docker := on_home_docker W;
     on_trim := on_trim W;
     on_isDebug := on_isDebug W;
     on_stringify := on_stringify W;
     on_isValidUrl := on_isValidUrl W;
     on_satisfies := on_satisfies W;
     on_getInputs := on_getInputs W;
     on_exec := on_exec W;
     on_getExecOutput := fun _ _ _ => Throw message;
     on_build := on_build W;
     on_install := on_install W;
     on_isAvailable := on_isAvailable W;
     on_getVersion := on_getVersion W;
     on_inspect := on_inspect W;
     on_getBuildKitVersion := on_getBuildKitVersion W |}.

(** The job of [ci_world] on a host where docker has gone by the time of
    the cleanup. *)
Definition stranded_world : World :=
  without_executor ci_world "Unable to locate executable file: docker".

(** A command that fails and says why. *)
Definition failing_loudly : ExecOutput :=
  {| exitCode := 1; stdout := "";
     stderr := String (ascii_of_nat 32)
                 ("error: no builder found" ++ String (ascii_of_nat 10) EmptyString) |}.

Definition loud_world : World :=
  quiet_world (sample_inputs "docker-container" "tcp://10.0.0.7:2375" "")
    "0.4.0" (Some "--debug") failing_loudly.

(** * Vocabulary of the statements *)

(** ** Events of an action *)

(** [emits P m]: whatever happened before, every event that [m] adds
    satisfies [P]. *)
Definition emits {A : Type} (P : event -> Prop) (m : M A) : Prop :=
  forall h, Forall P (fst (m h)).

(** ** The creation command *)

(** One [--driver-opt] pair per driver option. *)
Definition driverOptPairs (opts : list string) : list string :=
  flat_map (fun driverOpt => ["--driver-opt"; driverOpt]) opts.

(** The version-gated part of the creation arguments. *)
Definition gatedArgs (W : World) (inputs : context.Inputs) (buildxVersion : string)
    : list string :=
  if on_satisfies W buildxVersion ">=0.3.0" then
    driverOptPairs (context.driverOpts inputs) ++
    (if truthy (context.buildkitdFlags inputs)
     then ["--buildkitd-flags"; context.buildkitdFlags inputs] else [])
  else [].

Definition useArgs (inputs : context.Inputs) : list string :=
  if context.use inputs then ["--use"] else [].

Definition endpointArgs (inputs : context.Inputs) : list string :=
  if truthy (context.endpoint inputs) then [context.endpoint inputs] else [].

Definition configArgs (inputs : context.Inputs) : list string :=
  if truthy (context.config inputs) then ["--config"; context.config inputs] else [].

(** ** Failures of collaborator calls *)

Definition message_of {A : Type} (r : result A) : option string :=
  match r with
  | Ok _ => None
  | Throw msg => Some msg
  end.

(** [thrown W h e]: the message of the error raised by the call [e] made
    after [h], if that call fails. *)
Definition thrown (W : World) (h : trace) (e : event) : option string :=
  match e with
  | Exec commandLine args => message_of (on_exec W h commandLine args)
  | GetExecOutput commandLine args =>
      message_of (on_getExecOutput W h commandLine args)
  | GetInputs => message_of (on_getInputs W)
  | Build ref home => message_of (on_build W h ref home)
  | Install v home => message_of (on_install W h v home)
  | IsAvailable => message_of (on_isAvailable W h)
  | GetVersion => message_of (on_getVersion W h)
  | Inspect name => message_of (on_inspect W h name)
  | GetBuildKitVersion c => message_of (on_getBuildKitVersion W h c)
  | _ => None
  end.

Definition is_setFailed (e : event) : bool :=
  match e with
  | SetFailed _ => true
  | _ => false
  end.

(** [calm W h t]: made after [h], none of the calls of [t] fails, and none
    reports a failure. *)
Fixpoint calm (W : World) (h t : trace) : Prop :=
  match t with
  | [] => True
  | e :: t' =>
      thrown W h e = None /\ is_setFailed e = false /\ calm W (h ++ [e]) t'
  end.

(** [fails_last W h t msg]: made after [h], the calls of [t] go well up to
    the last one, which throws [msg]. *)
Definition fails_last (W : World) (h t : trace) (msg : string) : Prop :=
  exists pre e,
    t = pre ++ [e] /\ calm W h pre /\
    thrown W (h ++ pre) e = Some msg /\ is_setFailed e = false.

(** [safe W m]: [m] returns normally only after calls that all went
    well, and throws only the error of its last call. *)
Definition safe {A : Type} (W : World) (m : M A) : Prop :=
  forall h,
    match m h with
    | (t, Ok _) => calm W h t
    | (t, Throw msg) => fails_last W h t msg
    end.

(** ** What a trace says *)

(** The values written to the structured-output sink, in order. *)
Definition outputs (t : trace) : list (string * option string) :=
  flat_map (fun e => match e with SetOutput key value => [(key, value)] | _ => [] end) t.

Definition is_save (e : event) : bool :=
  match e with
  | SetBuilderName _ | SetContainerName _ | SetDebug _ => true
  | _ => false
  end.

(** The calls that write to the saved state, in order. *)
Definition saves (t : trace) : trace := filter is_save t.

(** An event that writes neither an output nor a piece of state. *)
Definition plain (e : event) : Prop :=
  is_save e = false /\ match e with SetOutput _ _ => False | _ => True end.

(** ** A setup that completes *)

(** What lines 83-88 save for the container. *)
Definition containerSaves (inputs : context.Inputs) (builder : buildx.Builder)
    : trace :=
  if context.driver inputs =? "docker-container"
  then [SetContainerName ("buildx_buildkit_" ++ buildx.node_name builder)]
  else [].

(** What lines 89-91 save for the debug flag. *)
Definition debugSaves (W : World) (builder : buildx.Builder) : trace :=
  if debugRequested W builder then [SetDebug "true"] else [].

(** ** Runs *)

(** A setup phase that reaches the end of its [try] block. *)
Definition completes (W : World) : Prop := snd (setup W []) = Ok tt.

(** The call [Inspect n], made after [before], returned [builder]. *)
Definition inspected (W : World) (builder : buildx.Builder) : Prop :=
  exists before after n,
    setup_phase W = before ++ Inspect n :: after /\
    on_inspect W before n = Ok builder.

(** ** Commands *)

Fixpoint starts_with (prefix args : list string) : bool :=
  match prefix, args with
  | [], _ => true
  | p :: prefix', a :: args' => (p =? a) && starts_with prefix' args'
  | _ :: _, [] => false
  end.

(** [docker buildx create ...] run through [exec.exec]. *)
Definition is_create (e : event) : bool :=
  match e with
  | Exec c args => (c =? "docker") && starts_with ["buildx"; "create"] args
  | _ => false
  end.

(** [docker buildx inspect --bootstrap ...] run through [exec.exec]. *)
Definition is_boot (e : event) : bool :=
  match e with
  | Exec c args => (c =? "docker") && starts_with ["buildx"; "inspect"; "--bootstrap"] args
  | _ => false
  end.

(** [docker buildx rm ...] *)
Definition is_removal (e : event) : bool :=
  match e with
  | GetExecOutput c args => (c =? "docker") && starts_with ["buildx"; "rm"] args
  | _ => false
  end.

(** [docker logs ...] *)
Definition is_logs (e : event) : bool :=
  match e with
  | GetExecOutput c args => (c =? "docker") && starts_with ["logs"] args
  | _ => false
  end.

(** A creation or boot command is one built by [createArgs] or
    [bootstrapArgs] from the inputs of the run, for a custom driver, and
    from a version reported by the installed tool. *)
Definition built_by_run (W : World) (e : event) : Prop :=
  is_create e = true \/ is_boot e = true ->
  exists inputs hv buildxVersion,
    on_getInputs W = Ok inputs /\
    context.driver inputs <> "docker" /\
    on_getVersion W hv = Ok buildxVersion /\
    (is_create e = true ->
     e = Exec "docker" (createArgs W (builderName inputs) inputs buildxVersion)) /\
    (is_boot e = true ->
     e = Exec "docker" (bootstrapArgs W (builderName inputs) buildxVersion)).

(** ** Arguments of the creation and boot commands *)

(** [endpoint] is the last token of [args]. *)
Definition endpoint_is_last (args : list string) (endpoint : string) : Prop :=
  exists flags, args = flags ++ [endpoint].

(** The inputs with the driver options and the buildkitd flags left out. *)
Definition without_driver_settings (inputs : context.Inputs) : context.Inputs :=
  {| context.version := context.version inputs;
     context.driver := context.driver inputs;
     context.driverOpts := [];
     context.buildkitdFlags := "";
     context.endpoint := context.endpoint inputs;
     context.config := context.config inputs;
     context.use := context.use inputs;
     context.install := context.install inputs;
     context.builderName := context.builderName inputs |}.

(** No call of the world fails. *)
Definition all_calls_succeed (W : World) : Prop :=
  forall h e, thrown W h e = None.

(** ** Provisioning *)

(** The install actions taken, in order. *)
Definition installs (t : trace) : trace :=
  filter (fun e => match e with Build _ _ | Install _ _ => true | _ => false end) t.

(** ** Cleanup *)

(** The warning, if any, logged for the result of a cleanup command
    (the [then] callback of lines 104-108 and 118-122). *)
Definition warning_of (W : World) (res : ExecOutput) : trace :=
  if (0 <? String.length (stderr res))%nat && negb (exitCode res =? 0)%Z
  then [Warning (on_trim W (stderr res))] else [].

(** One cleanup step whose command resolved with [res]: a group in which
    [docker args] is run and its failure, if any, is looked at. *)
Definition commandStep (W : World) (title : string) (args : list string)
    (res : ExecOutput) : trace :=
  [StartGroup title; GetExecOutput "docker" args] ++ warning_of W res ++ [EndGroup].

(** One cleanup step, made after [h]: when the command resolves the step
    is carried through, when it rejects the step ends with the command
    and throws its error. *)
Definition groupStep (W : World) (title : string) (args : list string) : M unit :=
  fun h =>
    match on_getExecOutput W (h ++ [StartGroup title]) "docker" args with
    | Ok res => (commandStep W title args res, Ok tt)
    | Throw msg => ([StartGroup title; GetExecOutput "docker" args], Throw msg)
    end.

(** Line 98: the container logs are asked for. *)
Definition logsDue (st : stateHelper.State) : bool :=
  stateHelper.IsDebug st && negb (stateHelper.containerName st =? "").

(** Line 112: a builder is to be removed. *)
Definition removalDue (st : stateHelper.State) : bool :=
  negb (stateHelper.builderName st =? "").

(** The logs step, if due, for a command that resolved with [res]. *)
Definition logsStep (W : World) (st : stateHelper.State) (res : ExecOutput) : trace :=
  if logsDue st
  then commandStep W "BuildKit container logs"
         ["logs"; stateHelper.containerName st] res
  else [].

(** The removal step, if due, for a command that resolved with [res]. *)
Definition removeStep (W : World) (st : stateHelper.State) (res : ExecOutput) : trace :=
  if removalDue st
  then commandStep W "Removing builder"
         ["buildx"; "rm"; stateHelper.builderName st] res
  else [].

(** Every failure of a cleanup command is followed by a warning. *)
Definition warns_on_every_failure (W : World) (t : trace) : Prop :=
  forall before c args after res,
    t = before ++ GetExecOutput c args :: after ->
    on_getExecOutput W before c args = Ok res ->
    exitCode res <> 0%Z ->
    exists msg after', after = Warning msg :: after'.

(** After every cleanup command that resolves come the warning for its
    result, if one is due, and the end of its group. *)
Fixpoint well_warned (W : World) (h t : trace) : Prop :=
  match t with
  | [] => True
  | e :: t' =>
      match e with
      | GetExecOutput c args =>
          forall res,
            on_getExecOutput W h c args = Ok res ->
            exists rest, t' = warning_of W res ++ EndGroup :: rest
      | _ => True
      end /\ well_warned W (h ++ [e]) t'
  end.

(** The same, said of every command of [t], made after [h]. *)
Definition warns_when_stderr (W : World) (h t : trace) : Prop :=
  forall before c args after res,
    t = before ++ GetExecOutput c args :: after ->
    on_getExecOutput W (h ++ before) c args = Ok res ->
    exists rest, after = warning_of W res ++ EndGroup :: rest.

(** Every failure-ignoring command of [t], made after [h], resolves. *)
Definition commands_resolve (W : World) (h t : trace) : Prop :=
  forall before c args after,
    t = before ++ GetExecOutput c args :: after ->
    exists res, on_getExecOutput W (h ++ before) c args = Ok res.

(** ** The docker driver *)

Definition names_default (e : event) : Prop :=
  match e with
  | SetOutput key value => key = "name" -> value = Some "default"
  | SetBuilderName n => n = "default"
  | _ => True
  end.

(** ** The debug flag *)


(** ** Taking an action apart *)

(** A look at the world that leaves no event and cannot fail. *)
Definition peek {A : Type} (f : trace -> A) : M A := fun h => ([], Ok (f h)).

(** ** The steps of a completed setup *)

(** Lines 12-17: the events before provisioning. *)
Definition preflightSteps : trace :=
  [StartGroup "Docker info"; Exec "docker" ["version"]; Exec "docker" ["info"];
   EndGroup; GetInputs].

(** Lines 35-65 *)
Definition createBootSteps (W : World) (inputs : context.Inputs)
    (buildxVersion : string) : trace :=
  if negb (context.driver inputs =? "docker") then
    [StartGroup "Creating a new builder instance";
     Exec "docker" (createArgs W (builderName inputs) inputs buildxVersion);
     EndGroup;
     StartGroup "Booting builder";
     Exec "docker" (bootstrapArgs W (builderName inputs) buildxVersion);
     EndGroup]
  else [].

(** Lines 67-71 *)
Definition installSteps (inputs : context.Inputs) : trace :=
  if context.install inputs then
    [StartGroup "Setting buildx as default builder";
     Exec "docker" ["buildx"; "install"];
     EndGroup]
  else [].

(** Lines 73-81 *)
Definition inspectSteps (W : World) (inputs : context.Inputs)
    (builder : buildx.Builder) : trace :=
  [StartGroup "Inspect builder";
   Inspect (builderName inputs);
   Info (on_stringify W builder);
   SetOutput "driver" (Some (buildx.driver builder));
   SetOutput "endpoint" (Some (buildx.node_endpoint builder));
   SetOutput "status" (Some (buildx.node_status builder));
   SetOutput "flags" (buildx.node_flags builder);
   SetOutput "platforms" (Some (buildx.node_platforms builder));
   EndGroup].

(** Lines 83-88 *)
Definition buildkitSteps (inputs : context.Inputs) (builder : buildx.Builder)
    (buildkitVersion : string) : trace :=
  if context.driver inputs =? "docker-container" then
    [SetContainerName ("buildx_buildkit_" ++ buildx.node_name builder);
     StartGroup "BuildKit version";
     GetBuildKitVersion ("buildx_buildkit_" ++ buildx.node_name builder);
     Info buildkitVersion;
     EndGroup]
  else [].

(** Everything a completed setup does, in order. *)
Definition completedSteps (W : World) (inputs : context.Inputs)
    (provisioning : trace) (buildxVersion : string) (builder : buildx.Builder)
    (buildkitVersion : string) : trace :=
  preflightSteps ++ provisioning
    ++ [GetVersion;
        SetOutput "name" (Some (builderName inputs));
        SetBuilderName (builderName inputs)]
    ++ createBootSteps W inputs buildxVersion
    ++ installSteps inputs
    ++ inspectSteps W inputs builder
    ++ buildkitSteps inputs builder buildkitVersion
    ++ debugSaves W builder.

(** The container whose logs cleanup asks for. *)
Definition containerOf (builder : buildx.Builder) : string :=
  "buildx_buildkit_" ++ buildx.node_name builder.

(** After a completed setup with these inputs that inspected this
    builder, the container logs are asked for. *)
Definition logsAsked (W : World) (inputs : context.Inputs)
    (builder : buildx.Builder) : bool :=
  (context.driver inputs =? "docker-container") && debugRequested W builder.

(** The logs step of the cleanup after such a setup, when its command
    resolves with [logs]. *)
Definition logsSteps (W : World) (inputs : context.Inputs)
    (builder : buildx.Builder) (logs : ExecOutput) : trace :=
  if logsAsked W inputs builder
  then commandStep W "BuildKit container logs" ["logs"; containerOf builder] logs
  else [].

(** What cleanup does after such a setup, when its logs command, if any,
    resolves with [logs] and its removal command with [rm]. *)
Definition cleanupSteps (W : World) (inputs : context.Inputs)
    (builder : buildx.Builder) (logs rm : ExecOutput) : trace :=
  logsSteps W inputs builder logs
  ++ commandStep W "Removing builder" ["buildx"; "rm"; builderName inputs] rm.

(** ** The builder name, from setup to cleanup *)

(** An event that does not touch a builder. *)
Definition builder_free (e : event) : Prop :=
  is_create e = false /\ is_boot e = false /\ forall n, e <> Inspect n.

(** ** A setup that fails *)

Definition is_debug_save (e : event) : bool :=
  match e with
  | SetDebug _ => true
  | _ => false
  end.

(** ** The docker preflight *)

(** [W], except that every command run through [exec.exec] fails. *)
Definition without_docker (W : World) (message : string) : World :=
  {| on_DOCKER_CONFIG := on_DOCKER_CONFIG W;
     on_home_docker := on_home_docker W;
     on_trim := on_trim W;
     on_isDebug := on_isDebug W;
     on_stringify := on_stringify W;
     on_isValidUrl := on_isValidUrl W;
     on_satisfies := on_satisfies W;
     on_getInputs := on_getInputs W;
     on_exec := fun _ _ _ => Throw message;
     on_getExecOutput := on_getExecOutput W;
     on_build := on_build W;
     on_install := on_install W;
     on_isAvailable := on_isAvailable W;
     on_getVersion := on_getVersion W;
     on_inspect := on_inspect W;
     on_getBuildKitVersion := on_getBuildKitVersion W |}.

(** ** Registering buildx as the default builder *)

(** A job that asks for buildx to be registered as the default builder. *)
Definition installing_inputs : context.Inputs :=
  {| context.version := "";
     context.driver := "docker-container";
     context.driverOpts := [];
     context.buildkitdFlags := "";
     context.endpoint := "";
     context.config := "";
     context.use := true;
     context.install := true;
     context.builderName := "ci" |}.

Definition installing_world : World :=
  quiet_world installing_inputs "0.4.0" None silent.

(** ** What provisioning calls *)

(** What line 18 yields. *)
Definition configHome (DOCKER_CONFIG : option string) (home : string) : string :=
  match DOCKER_CONFIG with
  | Some d => if d =? "" then home else d
  | None => home
  end.

(** The calls that the provisioning of lines 20-28 may make for these
    inputs. *)
Definition provisioning_call (W : World) (inputs : context.Inputs) (e : event) : Prop :=
  match e with
  | Build ref home =>
      ref = context.version inputs /\
      on_isValidUrl W ref = true /\
      home = configHome (on_DOCKER_CONFIG W) (on_home_docker W)
  | Install v home =>
      on_isValidUrl W (context.version inputs) = false /\
      v <> "" /\
      v = (if context.version inputs =? "" then "latest" else context.version inputs) /\
      home = configHome (on_DOCKER_CONFIG W) (on_home_docker W)
  | IsAvailable => on_isValidUrl W (context.version inputs) = false
  | _ => True
  end.

(** ** The two phases keep apart *)

(** What the setup phase may do: anything but a failure-ignoring command
    or a warning. *)
Definition setup_event (e : event) : bool :=
  match e with
  | GetExecOutput _ _ | Warning _ => false
  | _ => true
  end.

(** What the cleanup phase may do: groups, failure-ignoring commands and
    warnings. *)
Definition cleanup_event (e : event) : bool :=
  match e with
  | StartGroup _ | EndGroup | GetExecOutput _ _ | Warning _ => true
  | _ => false
  end.

(** ** Log groups *)

(** [bracketed inside t]: the groups of [t] are opened and closed in
    turn, never nested, starting inside a group or not, and ending
    outside. *)
Fixpoint bracketed (inside : bool) (t : trace) : bool :=
  match t with
  | [] => negb inside
  | StartGroup _ :: t' => negb inside && bracketed true t'
  | EndGroup :: t' => inside && bracketed false t'
  | _ :: t' => bracketed inside t'
  end.

(** The call that failed, in the trace of a failed run: the one before
    the report of the failure. *)
Definition failing_call (t : trace) : event := last (removelast t) EndGroup.

(** The calls that [run] makes outside of any group. *)
Definition outside_groups (e : event) : bool :=
  match e with
  | GetInputs | IsAvailable | GetVersion => true
  | _ => false
  end.

(** ** What a run writes, whether it completes or not *)

(** The keys written to the output sink are none, the name alone, or the
    name and the five of the inspection. *)
Definition output_keys_allowed (keys : list string) : bool :=
  match keys with
  | [] => true
  | [k] => k =? "name"
  | [k1; k2; k3; k4; k5; k6] =>
      (k1 =? "name") && (k2 =? "driver") && (k3 =? "endpoint") &&
      (k4 =? "status") && (k5 =? "flags") && (k6 =? "platforms")
  | _ => false
  end.

(** The state is written in the order builder name, container name, debug
    flag, each at most once, and nothing without the builder name. *)
Definition saves_in_order (s : trace) : bool :=
  match s with
  | [] => true
  | [SetBuilderName _] => true
  | [SetBuilderName _; SetContainerName _] => true
  | [SetBuilderName _; SetDebug _] => true
  | [SetBuilderName _; SetContainerName _; SetDebug _] => true
  | _ => false
  end.

(** ** The earlier revision of main.ts (lines 132-250 of the file)

    Its [run] differs from the later one: it refuses to run anywhere but
    on linux, has no docker preflight, installs buildx but never builds
    it, logs the version in use, draws the name of a custom builder from
    a uuid, and does not ask for the BuildKit version.  The arguments of
    the creation and boot commands (lines 167-184 and 189-192) are those
    of the later revision, with [semver.satisfies] as the version
    comparison of the world.  Its [cleanup] runs its commands through
    ./exec, which is not among the sources, and is left out. *)
Module earlier.

(** What this revision reads from its host besides the world: the
    operating system, and a uuid that may differ at every draw. *)
Record Host : Type := {
  os_platform : string;
  uuid_v4 : trace -> string
}.

Section Run.

Variable P : Host.
Variable W : World.

(** [require('uuid').v4()] *)
Definition uuid : M string := peek (uuid_v4 P).

(** Lines 152-156 *)
Definition provision (inputs : context.Inputs) : M unit :=
  available <- buildx_isAvailable W;;
  if negb available || truthy (context.version inputs) then
    core_startGroup "Installing buildx";;
    buildx_install W
      (if truthy (context.version inputs) then context.version inputs else "latest")
      (dockerConfigHome W);;
    core_endGroup
  else ret tt.

(** Line 161 *)
Definition builderName (inputs : context.Inputs) : M string :=
  if context.driver inputs =? "docker" then ret "default"
  else u <- uuid;; ret ("builder-" ++ u)%string.

(** Lines 149-218: the body of the [try] block after the platform test. *)
Definition setup : M unit :=
  inputs <- context_getInputs W;;
  provision inputs;;
  buildxVersion <- buildx_getVersion W;;
  core_info ("Using buildx " ++ buildxVersion);;
  builderName <- builderName inputs;;
  context_setOutput "name" (Some builderName);;
  stateHelper_setBuilderName builderName;;
  (if negb (context.driver inputs =? "docker") then
     core_startGroup "Creating a new builder instance";;
     exec_exec W "docker" (createArgs W builderName inputs buildxVersion);;
     core_endGroup;;
     core_startGroup "Booting builder";;
     exec_exec W "docker" (bootstrapArgs W builderName buildxVersion);;
     core_endGroup
   else ret tt);;
  (if context.install inputs then
     core_startGroup "Setting buildx as default builder";;
     exec_exec W "docker" ["buildx"; "install"];;
     core_endGroup
   else ret tt);;
  core_startGroup "Inspect builder";;
  builder <- buildx_inspect W builderName;;
  core_info (on_stringify W builder);;
  context_setOutput "driver" (Some (buildx.driver builder));;
  context_setOutput "endpoint" (Some (buildx.node_endpoint builder));;
  context_setOutput "status" (Some (buildx.node_status builder));;
  context_setOutput "flags" (buildx.node_flags builder);;
  context_setOutput "platforms" (Some (buildx.node_platforms builder));;
  core_endGroup;;
  (if context.driver inputs =? "docker-container" then
     stateHelper_setContainerName ("buildx_buildkit_" ++ buildx.node_name builder)
   else ret tt);;
  (if debugRequested W builder then stateHelper_setDebug "true" else ret tt).

(** Lines 142-222 *)
Definition run : M unit :=
  try_catch
    (if negb (os_platform P =? "linux")
     then core_setFailed "Only supported on linux platform"
     else setup)
    core_setFailed.

End Run.

(** Lines 165-195, for the builder [name]. *)
Definition createBootSteps (W : World) (inputs : context.Inputs)
    (name buildxVersion : string) : trace :=
  if negb (context.driver inputs =? "docker") then
    [StartGroup "Creating a new builder instance";
     Exec "docker" (createArgs W name inputs buildxVersion);
     EndGroup;
     StartGroup "Booting builder";
     Exec "docker" (bootstrapArgs W name buildxVersion);
     EndGroup]
  else [].

(** Lines 203-211, for the builder [name]. *)
Definition inspectSteps (W : World) (name : string) (builder : buildx.Builder)
    : trace :=
  [StartGroup "Inspect builder";
   Inspect name;
   Info (on_stringify W builder);
   SetOutput "driver" (Some (buildx.driver builder));
   SetOutput "endpoint" (Some (buildx.node_endpoint builder));
   SetOutput "status" (Some (buildx.node_status builder));
   SetOutput "flags" (buildx.node_flags builder);
   SetOutput "platforms" (Some (buildx.node_platforms builder));
   EndGroup].

(** Everything a completed setup of this revision does, in order. *)
Definition completedSteps (W : World) (inputs : context.Inputs)
    (provisioning : trace) (buildxVersion name : string)
    (builder : buildx.Builder) : trace :=
  [GetInputs] ++ provisioning
    ++ [GetVersion;
        Info ("Using buildx " ++ buildxVersion);
        SetOutput "name" (Some name);
        SetBuilderName name]
    ++ createBootSteps W inputs name buildxVersion
    ++ installSteps inputs
    ++ inspectSteps W name builder
    ++ containerSaves inputs builder
    ++ debugSaves W builder.

(** A linux host whose uuid is always the same. *)
Definition linux_host : Host :=
  {| os_platform := "linux";
     uuid_v4 := fun _ => "1b9d6bcd-bbfd-4b2d-9b5d-ab8dfbbd4bed" |}.

(** A host on which this revision refuses to run. *)
Definition darwin_host : Host :=
  {| os_platform := "darwin";
     uuid_v4 := fun _ => "1b9d6bcd-bbfd-4b2d-9b5d-ab8dfbbd4bed" |}.

End earlier.

(** * Lemmas and theorems *)

(** ** The version comparison of the spec, at its boundaries *)

Example satisfies_at_boundaries :
  buildx.satisfies "0.3.0" ">=0.3.0" = true /\
  buildx.satisfies "0.2.9" ">=0.3.0" = false /\
  buildx.satisfies "0.4.0" ">=0.4.0" = true /\
  buildx.satisfies "0.3.99" ">=0.4.0" = false /\
  buildx.satisfies "0.10.1" ">=0.4.0" = true.
Proof. repeat split. Qed.

(** ** JavaScript strings *)

Example trim_example :
  trim (String (ascii_of_nat 32) (String "a" (String (ascii_of_nat 9)
         (String "b" (String (ascii_of_nat 10) EmptyString))))) =
  String "a" (String (ascii_of_nat 9) (String "b" EmptyString)).
Proof. reflexivity. Qed.

Example includes_example :
  includes "--allow-insecure-entitlement --debug" "--debug" = true /\
  includes "--allow-insecure-entitlement" "--debug" = false.
Proof. split; reflexivity. Qed.

(** ** Reasoning about actions *)

Lemma bind_ok_inv {A B : Type} (m : M A) (f : A -> M B) h t b :
  bind m f h = (t, Ok b) ->
  exists t1 a t2, m h = (t1, Ok a) /\ f a (h ++ t1) = (t2, Ok b) /\ t = t1 ++ t2.
Proof.
  unfold bind. destruct (m h) as [t1 [a | msg]]; [| discriminate].
  destruct (f a (h ++ t1)) as [t2 r] eqn:Hf. intros [= <- ->].
  now exists t1, a, t2.
Qed.

Lemma emit_inv e h t (u : unit) : emit e h = (t, Ok u) -> t = [e].
Proof. now intros [= <-]. Qed.

Lemma ask_ok_inv {A : Type} e (answer : trace -> result A) h t a :
  ask e answer h = (t, Ok a) -> t = [e] /\ answer h = Ok a.
Proof. unfold ask. now intros [= <- ->]. Qed.

Lemma ret_inv {A : Type} (a b : A) h t : ret a h = (t, Ok b) -> t = [].
Proof. now intros [= <-]. Qed.

Lemma emits_ret {A : Type} P (a : A) : emits P (ret a).
Proof. intros h. constructor. Qed.

Lemma emits_emit (P : event -> Prop) e : P e -> emits P (emit e).
Proof. intros He h. simpl. auto. Qed.

Lemma emits_ask {A : Type} (P : event -> Prop) e (answer : trace -> result A) :
  P e -> emits P (ask e answer).
Proof. intros He h. simpl. auto. Qed.

Lemma emits_bind {A B : Type} P (m : M A) (f : A -> M B) :
  emits P m ->
  (forall a h, snd (m h) = Ok a -> emits P (f a)) ->
  emits P (bind m f).
Proof.
  intros Hm Hf h. unfold bind. specialize (Hm h).
  destruct (m h) as [t1 [a | msg]] eqn:E; simpl in *; auto.
  specialize (Hf a h). rewrite E in Hf. specialize (Hf eq_refl (h ++ t1)).
  destruct (f a (h ++ t1)) as [t2 r]. simpl in *.
  apply Forall_app. auto.
Qed.

Lemma emits_if {A : Type} P (c : bool) (m1 m2 : M A) :
  (c = true -> emits P m1) -> (c = false -> emits P m2) ->
  emits P (if c then m1 else m2).
Proof. destruct c; auto. Qed.

Lemma emits_try_catch P m handler :
  emits P m -> (forall msg, emits P (handler msg)) -> emits P (try_catch m handler).
Proof.
  intros Hm Hh h. unfold try_catch. specialize (Hm h).
  destruct (m h) as [t1 [a | msg]]; simpl in *; auto.
  specialize (Hh msg (h ++ t1)). destruct (handler msg (h ++ t1)) as [t2 r].
  simpl in *. apply Forall_app. auto.
Qed.

(** ** The creation command *)

Lemma asyncForEach_push (opts : list string) (args : list string) :
  context.asyncForEach opts
    (fun driverOpt createArgs => push createArgs ["--driver-opt"; driverOpt]) args
  = args ++ driverOptPairs opts.
Proof.
  unfold context.asyncForEach, driverOptPairs, push.
  revert args. induction opts as [| o opts IH]; intros args; simpl.
  - now rewrite app_nil_r.
  - rewrite IH. now rewrite <- app_assoc.
Qed.

Lemma createArgs_shape W name inputs buildxVersion :
  createArgs W name inputs buildxVersion =
  ["buildx"; "create"; "--name"; name; "--driver"; context.driver inputs]
    ++ gatedArgs W inputs buildxVersion
    ++ useArgs inputs ++ endpointArgs inputs ++ configArgs inputs.
Proof.
  unfold createArgs, gatedArgs, useArgs, endpointArgs, configArgs.
  rewrite asyncForEach_push. unfold push.
  destruct (on_satisfies W buildxVersion ">=0.3.0");
    destruct (truthy (context.buildkitdFlags inputs));
    destruct (context.use inputs);
    destruct (truthy (context.endpoint inputs));
    destruct (truthy (context.config inputs));
    repeat (rewrite <- app_assoc || rewrite app_nil_r || simpl); reflexivity.
Qed.

Lemma truthy_true s : s <> "" -> truthy s = true.
Proof.
  intros H. unfold truthy. destruct (String.eqb_spec s ""); [contradiction | reflexivity].
Qed.

Lemma builderName_custom inputs :
  context.driver inputs <> "docker" ->
  builderName inputs = ("builder-" ++ context.builderName inputs)%string.
Proof.
  intros H. unfold builderName.
  destruct (String.eqb_spec (context.driver inputs) "docker"); [contradiction | reflexivity].
Qed.

(** ** Failures of collaborator calls *)

Lemma calm_app W t1 : forall h t2,
  calm W h (t1 ++ t2) <-> calm W h t1 /\ calm W (h ++ t1) t2.
Proof.
  induction t1 as [| e t1 IH]; intros h t2; simpl.
  - rewrite app_nil_r. tauto.
  - rewrite IH. rewrite <- app_assoc. simpl. tauto.
Qed.

Lemma safe_ret {A : Type} W (a : A) : safe W (ret a).
Proof. intros h. exact I. Qed.

Lemma safe_emit W e :
  (forall h, thrown W h e = None) -> is_setFailed e = false -> safe W (emit e).
Proof. intros He Hf h. simpl. auto. Qed.

Lemma safe_ask {A : Type} W e (answer : trace -> result A) :
  (forall h, thrown W h e = message_of (answer h)) ->
  is_setFailed e = false ->
  safe W (ask e answer).
Proof.
  intros He Hf h. unfold ask. specialize (He h).
  destruct (answer h) as [a | msg]; simpl in *.
  - auto.
  - exists [], e. rewrite app_nil_r. simpl. auto.
Qed.

Lemma safe_bind {A B : Type} W (m : M A) (f : A -> M B) :
  safe W m -> (forall a, safe W (f a)) -> safe W (bind m f).
Proof.
  intros Hm Hf h. unfold bind. specialize (Hm h).
  destruct (m h) as [t1 [a | msg]]; [| exact Hm].
  specialize (Hf a (h ++ t1)). destruct (f a (h ++ t1)) as [t2 [b | msg]].
  - apply calm_app. auto.
  - destruct Hf as (pre & e & -> & Hpre & He & Hf).
    exists (t1 ++ pre), e. rewrite <- !app_assoc in *.
    repeat split; auto. apply calm_app. auto.
Qed.

Lemma safe_if {A : Type} W (c : bool) (m1 m2 : M A) :
  safe W m1 -> safe W m2 -> safe W (if c then m1 else m2).
Proof. destruct c; auto. Qed.

Ltac safe_tac :=
  repeat first
    [ apply safe_bind; [| intros ?]
    | apply safe_if
    | apply safe_ret
    | apply safe_emit; [intros ?; reflexivity | reflexivity]
    | apply safe_ask; [intros ?; reflexivity | reflexivity] ].

Lemma provision_safe W inputs : safe W (provision W inputs).
Proof.
  unfold provision.
  destruct (on_isValidUrl W (context.version inputs)).
  - unfold core_startGroup, core_endGroup, buildx_build. safe_tac.
  - unfold buildx_isAvailable, core_startGroup, core_endGroup, buildx_install.
    safe_tac.
Qed.

Lemma setup_safe W : safe W (setup W).
Proof.
  unfold setup.
  unfold core_startGroup, core_endGroup, core_info, exec_exec, context_getInputs,
    context_setOutput, buildx_getVersion, buildx_inspect,
    buildx_getBuildKitVersion, stateHelper_setBuilderName,
    stateHelper_setContainerName, stateHelper_setDebug.
  repeat first [ apply provision_safe | progress safe_tac ].
Qed.

(** ** What a trace says *)

Lemma outputs_app t1 t2 : outputs (t1 ++ t2) = outputs t1 ++ outputs t2.
Proof. apply flat_map_app. Qed.

Lemma saves_app t1 t2 : saves (t1 ++ t2) = saves t1 ++ saves t2.
Proof. apply filter_app. Qed.

Lemma plain_outputs t : Forall plain t -> outputs t = [].
Proof.
  induction 1 as [| e t [_ He] _ IH]; simpl; auto.
  rewrite IH. destruct e; simpl; auto; contradiction.
Qed.

Lemma plain_saves t : Forall plain t -> saves t = [].
Proof.
  induction 1 as [| e t [He _] _ IH]; simpl; auto.
  now rewrite He.
Qed.

Lemma fold_save_saves t : forall st,
  fold_left stateHelper.save t st = fold_left stateHelper.save (saves t) st.
Proof.
  induction t as [| e t IH]; intros st; simpl; auto.
  destruct e; simpl; auto.
Qed.

Lemma persisted_saves t :
  stateHelper.persisted t = stateHelper.persisted (saves t).
Proof. unfold stateHelper.persisted. now rewrite fold_save_saves. Qed.

Ltac unfold_calls :=
  unfold core_startGroup, core_endGroup, core_info, core_warning, core_setFailed,
    exec_exec, exec_getExecOutput, context_getInputs, context_setOutput,
    buildx_build, buildx_install, buildx_isAvailable, buildx_getVersion,
    buildx_inspect, buildx_getBuildKitVersion, stateHelper_setBuilderName,
    stateHelper_setContainerName, stateHelper_setDebug in *.

Ltac emits_tac :=
  repeat first
    [ apply emits_bind; [| intros ? ? ?]
    | apply emits_if; intros ?
    | apply emits_ret
    | apply emits_emit
    | apply emits_ask ].

Lemma provision_plain W inputs : emits plain (provision W inputs).
Proof.
  unfold provision. unfold_calls. emits_tac; now split.
Qed.

(** ** A setup that completes *)

Ltac ok_step H :=
  let t1 := fresh "t" in
  let a := fresh "a" in
  let t2 := fresh "t" in
  let Hm := fresh "Hm" in
  apply bind_ok_inv in H; destruct H as (t1 & a & t2 & Hm & H & ->);
  first
    [ apply emit_inv in Hm; subst t1
    | apply ask_ok_inv in Hm; destruct Hm as [-> Hm]
    | idtac ].

(** From the result of a block, that all its events are plain. *)
Ltac plain_block Hm :=
  match type of Hm with
  | ?m ?h = (?t, _) =>
      let E := fresh "Hplain" in
      assert (E : emits plain m) by (unfold_calls; emits_tac; now split);
      specialize (E h); rewrite Hm in E; simpl in E
  end.

Lemma setup_success W h t u :
  setup W h = (t, Ok u) ->
  exists inputs builder before after,
    on_getInputs W = Ok inputs /\
    t = before ++ Inspect (builderName inputs) :: after /\
    on_inspect W (h ++ before) (builderName inputs) = Ok builder /\
    outputs t =
      [("name", Some (builderName inputs));
       ("driver", Some (buildx.driver builder));
       ("endpoint", Some (buildx.node_endpoint builder));
       ("status", Some (buildx.node_status builder));
       ("flags", buildx.node_flags builder);
       ("platforms", Some (buildx.node_platforms builder))] /\
    saves t =
      SetBuilderName (builderName inputs)
        :: containerSaves inputs builder ++ debugSaves W builder /\
    exists hv buildxVersion,
      on_getVersion W hv = Ok buildxVersion /\
      (context.driver inputs <> "docker" ->
       In (Exec "docker" (createArgs W (builderName inputs) inputs buildxVersion)) t /\
       In (Exec "docker" (bootstrapArgs W (builderName inputs) buildxVersion)) t).
Proof.
  unfold setup. unfold_calls. intros H.
  do 21 ok_step H.
  match goal with
  | Hm : provision W ?i ?h0 = (?t0, _) |- _ =>
      pose proof (provision_plain W i h0) as Hprov;
      rewrite Hm in Hprov; simpl in Hprov; clear Hm
  end.
  match goal with
  | Hm : (if negb _ then _ else _) _ = _ |- _ => plain_block Hm
  end.
  match goal with
  | Hm : (if context.install _ then _ else _) _ = _ |- _ => plain_block Hm
  end.
  match goal with
  | Hi : on_getInputs _ = Ok ?i, Hb : on_inspect _ _ _ = Ok ?b |- _ =>
      exists i, b; rewrite <- !app_assoc in Hb;
      match type of Hb with
      | on_inspect _ (_ ++ ?before) _ = _ => exists before
      end
  end.
  eexists; split; [assumption |].
  split; [repeat (rewrite <- app_assoc || simpl); reflexivity |].
  split; [assumption |].
  rewrite !outputs_app, !saves_app.
  repeat match goal with
  | Hp : Forall plain ?t0 |- _ =>
      rewrite (plain_outputs t0 Hp), (plain_saves t0 Hp); clear Hp
  end.
  unfold containerSaves, debugSaves.
  match goal with
  | Hi : on_getInputs _ = Ok ?i, Hv : on_getVersion _ _ = Ok ?v,
    Hm : (if negb _ then _ else _) _ = (?tc, _) |- _ =>
      cut (context.driver i <> "docker" ->
           In (Exec "docker" (createArgs W (builderName i) i v)) tc /\
           In (Exec "docker" (bootstrapArgs W (builderName i) v)) tc);
      [ intros Hcmd | ]
  end.
  - repeat match goal with
    | Hm : (if negb _ then _ else _) _ = _ |- _ => clear Hm
    | Hm : (if context.install _ then _ else _) _ = _ |- _ => clear Hm
    end.
    repeat match goal with
    | Hm : (if ?c then _ else _) _ = (_, Ok _) |- _ =>
        destruct c;
        repeat ok_step Hm;
        first [apply emit_inv in Hm | apply ret_inv in Hm]; subst
    end.
    all: split; [reflexivity |]; split; [reflexivity |].
    all: do 2 eexists; split; [eassumption |].
    all: intros Hd; destruct (Hcmd Hd) as [Hc Hb].
    all: split; repeat (apply in_or_app; first [left; assumption | right]).
  - intros Hd.
    match goal with
    | Hm : (if negb (?d =? _) then _ else _) _ = (_, Ok _) |- _ =>
        destruct (String.eqb_spec d "docker");
        [contradiction |]; simpl in Hm;
        repeat ok_step Hm; apply emit_inv in Hm; subst
    end.
    simpl. tauto.
Qed.

(** ** Runs *)

Lemma run_unfold W h :
  run W h =
  match setup W h with
  | (t, Ok u) => (t, Ok u)
  | (t, Throw msg) => (t ++ [SetFailed msg], Ok tt)
  end.
Proof.
  unfold run, try_catch. destruct (setup W h) as [t [u | msg]]; reflexivity.
Qed.

Lemma setup_phase_unfold W : setup_phase W = fst (run W []).
Proof. reflexivity. Qed.

Lemma completes_trace W : completes W -> setup W [] = (setup_phase W, Ok tt).
Proof.
  unfold completes. rewrite setup_phase_unfold, run_unfold.
  destruct (setup W []) as [t [[] | msg]]; simpl; intros H; [reflexivity | discriminate].
Qed.

Lemma calm_no_failure W t : forall h msg, calm W h t -> ~ In (SetFailed msg) t.
Proof.
  induction t as [| e t IH]; intros h msg Hc; simpl in *; [tauto |].
  destruct Hc as (_ & He & Ht). intros [-> | Hin]; [discriminate |].
  eapply IH; eauto.
Qed.

(** C8. Whatever the world answers, [run] itself never throws, and its
    trace has one of two shapes.  Either every call went well and no
    failure is reported; or some call [e] threw [msg], everything before
    [e] went well, and the only thing that follows [e] is the report of
    [msg] as the failure of the job: nothing of the rest of the setup is
    done, and no output or state is written after the failing call. *)
Theorem run_failure_policy (W : World) (h : trace) :
  snd (run W h) = Ok tt /\
  (calm W h (fst (run W h)) \/
   exists pre e msg,
     fst (run W h) = pre ++ [e; SetFailed msg] /\
     calm W h pre /\
     thrown W (h ++ pre) e = Some msg /\
     (forall m, ~ In (SetFailed m) (pre ++ [e]))).
Proof.
  rewrite run_unfold. pose proof (setup_safe W h) as Hs.
  destruct (setup W h) as [t [[] | msg]]; simpl.
  - split; [reflexivity | left; exact Hs].
  - split; [reflexivity | right].
    destruct Hs as (pre & e & -> & Hpre & He & Hf).
    exists pre, e, msg. rewrite <- app_assoc. simpl.
    repeat split; auto.
    intros m Hin. apply in_app_or in Hin. destruct Hin as [Hin | [Heq | []]].
    + eapply calm_no_failure; eauto.
    + subst e. discriminate.
Qed.

(** C9. When the setup completes, the structured-output sink has received,
    in this order, the builder name and then, under the keys [driver],
    [endpoint], [status], [flags] and [platforms], the fields of the very
    record that the inspect call of this run returned. *)
Theorem outputs_are_inspected_fields (W : World) :
  completes W ->
  exists inputs builder,
    on_getInputs W = Ok inputs /\
    inspected W builder /\
    outputs (setup_phase W) =
      [("name", Some (builderName inputs));
       ("driver", Some (buildx.driver builder));
       ("endpoint", Some (buildx.node_endpoint builder));
       ("status", Some (buildx.node_status builder));
       ("flags", buildx.node_flags builder);
       ("platforms", Some (buildx.node_platforms builder))].
Proof.
  intros Hc. apply completes_trace in Hc.
  destruct (setup_success _ _ _ _ Hc)
    as (inputs & builder & before & after & Hi & Ht & Hb & Ho & _).
  exists inputs, builder. repeat split; auto.
  exists before, after, (builderName inputs). auto.
Qed.

Lemma outputs_are_inspected_fields_witness :
  completes ci_world /\
  exists inputs builder,
    on_getInputs ci_world = Ok inputs /\
    inspected ci_world builder /\
    outputs (setup_phase ci_world) =
      [("name", Some (builderName inputs));
       ("driver", Some (buildx.driver builder));
       ("endpoint", Some (buildx.node_endpoint builder));
       ("status", Some (buildx.node_status builder));
       ("flags", buildx.node_flags builder);
       ("platforms", Some (buildx.node_platforms builder))].
Proof.
  split; [reflexivity |].
  apply (outputs_are_inspected_fields ci_world). reflexivity.
Defined.

(** ** Commands *)

Lemma is_boot_createArgs W n i v : is_boot (Exec "docker" (createArgs W n i v)) = false.
Proof. rewrite createArgs_shape. reflexivity. Qed.

Lemma is_create_createArgs W n i v : is_create (Exec "docker" (createArgs W n i v)) = true.
Proof. rewrite createArgs_shape. reflexivity. Qed.

Lemma is_create_bootstrapArgs W n v : is_create (Exec "docker" (bootstrapArgs W n v)) = false.
Proof. unfold bootstrapArgs. destruct (on_satisfies W v ">=0.4.0"); reflexivity. Qed.

Lemma is_boot_bootstrapArgs W n v : is_boot (Exec "docker" (bootstrapArgs W n v)) = true.
Proof. unfold bootstrapArgs. destruct (on_satisfies W v ">=0.4.0"); reflexivity. Qed.

Lemma run_commands_built W : emits (built_by_run W) (run W).
Proof.
  apply emits_try_catch;
    [| intros msg; apply emits_emit; intros [H | H]; discriminate].
  unfold setup, provision. unfold_calls. emits_tac.
  all: try (intros [H' | H']; discriminate).
  all: repeat match goal with
    | H : snd (ask _ _ _) = Ok _ |- _ => simpl in H
    | H : negb (_ =? _) = true |- _ =>
        apply negb_true_iff in H; apply String.eqb_neq in H
    end.
  - intros _. do 3 eexists.
    split; [eassumption |]. split; [assumption |]. split; [eassumption |].
    split; intros Hx; [reflexivity |].
    rewrite is_boot_createArgs in Hx. discriminate.
  - intros _. do 3 eexists.
    split; [eassumption |]. split; [assumption |]. split; [eassumption |].
    split; intros Hx; [| reflexivity].
    rewrite is_create_bootstrapArgs in Hx. discriminate.
Qed.

(** ** Arguments of the creation and boot commands *)

(** C1, as stated, fails: with an endpoint and a config path, the
    creation command that [run] issues ends with the [--config] pair,
    and the endpoint stands before it. *)
Lemma endpoint_not_last_with_config :
  context.driver remote_inputs <> "docker" /\
  context.endpoint remote_inputs <> "" /\
  In (Exec "docker" (createArgs remote_world (builderName remote_inputs) remote_inputs "0.4.0"))
     (setup_phase remote_world) /\
  createArgs remote_world (builderName remote_inputs) remote_inputs "0.4.0" =
    ["buildx"; "create"; "--name"; "builder-ci"; "--driver"; "docker-container";
     "--driver-opt"; "image=moby/buildkit:master"; "--driver-opt"; "network=host";
     "--buildkitd-flags"; "--allow-insecure-entitlement network.host"; "--use";
     "tcp://10.0.0.7:2375"; "--config"; "/etc/buildkitd.toml"] /\
  ~ endpoint_is_last
      (createArgs remote_world (builderName remote_inputs) remote_inputs "0.4.0")
      (context.endpoint remote_inputs).
Proof.
  split; [discriminate |]. split; [discriminate |].
  split; [vm_compute; tauto |]. split; [reflexivity |].
  intros [flags H].
  apply (f_equal (fun l => last l "")) in H.
  rewrite last_last in H. vm_compute in H. discriminate.
Qed.

(** C1, amended. For a custom driver and a non-empty endpoint, the
    creation arguments are the name and driver flags, the version-gated
    driver options, the [--use] flag, then the endpoint as a bare token,
    then the [--config] pair if a config path is given.  So the endpoint
    comes after every flag but [--config]: it is the last token when there
    is no config path, and is followed by exactly the [--config] pair
    otherwise. *)
Theorem endpoint_position (W : World) (inputs : context.Inputs) (buildxVersion : string) :
  context.driver inputs <> "docker" ->
  context.endpoint inputs <> "" ->
  let args := createArgs W (builderName inputs) inputs buildxVersion in
  let flags :=
    ["buildx"; "create"; "--name";
     ("builder-" ++ context.builderName inputs)%string;
     "--driver"; context.driver inputs]
      ++ gatedArgs W inputs buildxVersion ++ useArgs inputs in
  (context.config inputs = "" ->
   args = flags ++ [context.endpoint inputs] /\
   endpoint_is_last args (context.endpoint inputs)) /\
  (context.config inputs <> "" ->
   args = flags ++ [context.endpoint inputs; "--config"; context.config inputs]).
Proof.
  intros Hd He args flags. subst args flags.
  rewrite createArgs_shape, (builderName_custom _ Hd).
  unfold endpointArgs. rewrite (truthy_true _ He). unfold configArgs.
  split; intros Hc.
  - rewrite Hc. simpl.
    assert (forall (b c d : list string), b ++ c ++ d = (b ++ c) ++ d) as E
      by (intros; now rewrite app_assoc).
    rewrite E. split; [reflexivity |].
    exists (["buildx"; "create"; "--name";
             ("builder-" ++ context.builderName inputs)%string;
             "--driver"; context.driver inputs]
              ++ gatedArgs W inputs buildxVersion ++ useArgs inputs).
    reflexivity.
  - rewrite (truthy_true _ Hc). simpl. now rewrite <- !app_assoc.
Qed.

Lemma endpoint_position_witness :
  context.driver remote_inputs <> "docker" /\
  context.endpoint remote_inputs <> "" /\
  createArgs remote_world (builderName remote_inputs) remote_inputs "0.4.0" =
    (["buildx"; "create"; "--name";
      ("builder-" ++ context.builderName remote_inputs)%string;
      "--driver"; context.driver remote_inputs]
       ++ gatedArgs remote_world remote_inputs "0.4.0" ++ useArgs remote_inputs)
    ++ [context.endpoint remote_inputs; "--config"; context.config remote_inputs].
Proof.
  split; [discriminate |]. split; [discriminate |].
  apply (endpoint_position remote_world remote_inputs "0.4.0"); discriminate.
Defined.

Lemma all_calls_succeed_completes W : all_calls_succeed W -> completes W.
Proof.
  intros Hall. unfold completes. pose proof (setup_safe W []) as Hs.
  destruct (setup W []) as [t [[] | msg]]; simpl; [reflexivity |].
  destruct Hs as (pre & e & _ & _ & He & _). rewrite Hall in He. discriminate.
Qed.

(** C3. For a custom driver: on a tool that satisfies [>=0.3.0] the
    creation arguments carry, right after the name and driver flags, one
    [--driver-opt] pair per driver option in the order given, then one
    [--buildkitd-flags] pair if the flags are non-empty.  On a tool that
    does not, the arguments are those of the same inputs with the two
    settings left out, whatever was supplied.  Nothing fails because of
    it: the creation command is issued with these arguments, and if no
    call of the world fails the setup completes. *)
Theorem driver_settings_gated (W : World) (inputs : context.Inputs)
    (buildxVersion : string) :
  context.driver inputs <> "docker" ->
  let args := createArgs W (builderName inputs) inputs buildxVersion in
  let base :=
    ["buildx"; "create"; "--name";
     ("builder-" ++ context.builderName inputs)%string;
     "--driver"; context.driver inputs] in
  let rest := useArgs inputs ++ endpointArgs inputs ++ configArgs inputs in
  (on_satisfies W buildxVersion ">=0.3.0" = true ->
   args =
     base
       ++ flat_map (fun driverOpt => ["--driver-opt"; driverOpt])
            (context.driverOpts inputs)
       ++ (if context.buildkitdFlags inputs =? "" then []
           else ["--buildkitd-flags"; context.buildkitdFlags inputs])
       ++ rest) /\
  (on_satisfies W buildxVersion ">=0.3.0" = false ->
   args = base ++ rest /\
   args = createArgs W (builderName inputs) (without_driver_settings inputs)
            buildxVersion) /\
  (on_getInputs W = Ok inputs -> all_calls_succeed W ->
   completes W /\
   exists hv v,
     on_getVersion W hv = Ok v /\
     In (Exec "docker" (createArgs W (builderName inputs) inputs v))
        (setup_phase W)).
Proof.
  intros Hd args base rest. subst args base rest.
  split; [| split].
  - rewrite createArgs_shape, (builderName_custom _ Hd).
    unfold gatedArgs, driverOptPairs, truthy.
    intros ->. destruct (context.buildkitdFlags inputs =? ""); simpl;
      now rewrite <- ?app_assoc.
  - rewrite !createArgs_shape, (builderName_custom _ Hd).
    unfold gatedArgs. intros ->. split; reflexivity.
  - intros Hi Hall. pose proof (all_calls_succeed_completes _ Hall) as Hc.
    split; [exact Hc |]. apply completes_trace in Hc.
    destruct (setup_success _ _ _ _ Hc)
      as (inputs' & _ & _ & _ & Hi' & _ & _ & _ & _ & hv & v & Hv & Hcmd).
    rewrite Hi in Hi'. injection Hi' as <-.
    exists hv, v. split; [exact Hv |]. apply Hcmd. exact Hd.
Qed.

Lemma driver_settings_gated_witness :
  context.driver remote_inputs <> "docker" /\
  on_satisfies legacy_world "0.2.0" ">=0.3.0" = false /\
  on_satisfies remote_world "0.4.0" ">=0.3.0" = true /\
  createArgs legacy_world (builderName remote_inputs) remote_inputs "0.2.0" =
    ["buildx"; "create"; "--name"; "builder-ci"; "--driver"; "docker-container";
     "--use"; "tcp://10.0.0.7:2375"; "--config"; "/etc/buildkitd.toml"] /\
  createArgs remote_world (builderName remote_inputs) remote_inputs "0.4.0" =
    ["buildx"; "create"; "--name"; "builder-ci"; "--driver"; "docker-container";
     "--driver-opt"; "image=moby/buildkit:master"; "--driver-opt"; "network=host";
     "--buildkitd-flags"; "--allow-insecure-entitlement network.host";
     "--use"; "tcp://10.0.0.7:2375"; "--config"; "/etc/buildkitd.toml"] /\
  completes legacy_world.
Proof.
  assert (Hd : context.driver remote_inputs <> "docker") by discriminate.
  split; [exact Hd |]. split; [reflexivity |]. split; [reflexivity |].
  split; [| split].
  - apply (proj1 (proj2 (driver_settings_gated legacy_world remote_inputs "0.2.0" Hd))).
    reflexivity.
  - apply (proj1 (driver_settings_gated remote_world remote_inputs "0.4.0" Hd)).
    reflexivity.
  - apply (proj2 (proj2 (driver_settings_gated legacy_world remote_inputs "0.2.0" Hd))).
    + reflexivity.
    + intros h [] ; reflexivity.
Defined.

(** C4. The boot arguments are [buildx inspect --bootstrap], followed by
    [--builder] and the builder name exactly when the tool satisfies
    [>=0.4.0]; every boot command that a run issues is built this way,
    for a custom driver.  With the version comparison of the spec, the
    name is passed at 0.4.0 and is not at 0.2.0. *)
Theorem bootstrap_names_builder (W : World) (name buildxVersion : string) :
  bootstrapArgs W name buildxVersion =
    ["buildx"; "inspect"; "--bootstrap"]
      ++ (if on_satisfies W buildxVersion ">=0.4.0" then ["--builder"; name] else []) /\
  (In "--builder" (bootstrapArgs W name buildxVersion) <->
   on_satisfies W buildxVersion ">=0.4.0" = true) /\
  (forall h e, In e (fst (run W h)) -> is_boot e = true ->
     exists inputs hv v,
       on_getInputs W = Ok inputs /\ context.driver inputs <> "docker" /\
       on_getVersion W hv = Ok v /\
       e = Exec "docker" (bootstrapArgs W (builderName inputs) v)) /\
  ((forall v range, on_satisfies W v range = buildx.satisfies v range) ->
   bootstrapArgs W name "0.4.0" =
     ["buildx"; "inspect"; "--bootstrap"; "--builder"; name] /\
   bootstrapArgs W name "0.2.0" = ["buildx"; "inspect"; "--bootstrap"]).
Proof.
  unfold bootstrapArgs, push. repeat split.
  - destruct (on_satisfies W buildxVersion ">=0.4.0"); reflexivity.
  - destruct (on_satisfies W buildxVersion ">=0.4.0"); simpl; [reflexivity |].
    intros [H | [H | [H | []]]]; discriminate.
  - intros ->. simpl. tauto.
  - intros h e Hin Hb.
    pose proof (run_commands_built W h) as Hall.
    rewrite Forall_forall in Hall. specialize (Hall e Hin (or_intror Hb)).
    destruct Hall as (inputs & hv & v & Hi & Hd & Hv & _ & He).
    exists inputs, hv, v. auto.
  - rewrite H. reflexivity.
  - rewrite H. reflexivity.
Qed.

Lemma bootstrap_names_builder_witness :
  (forall v range, on_satisfies remote_world v range = buildx.satisfies v range) /\
  bootstrapArgs remote_world "builder-ci" "0.4.0" =
    ["buildx"; "inspect"; "--bootstrap"; "--builder"; "builder-ci"] /\
  bootstrapArgs remote_world "builder-ci" "0.2.0" = ["buildx"; "inspect"; "--bootstrap"].
Proof.
  split; [reflexivity |].
  apply (bootstrap_names_builder remote_world "builder-ci" "0.4.0"). reflexivity.
Defined.

(** ** Provisioning *)

(** C7. The provisioning step of [run] decides in this order.  A valid URL
    is built from source, and the search path is not even consulted.
    Otherwise the search path is consulted; if there is no binary, or a
    version was asked for, that release ("latest" when none was asked
    for) is installed and nothing is built.  Otherwise nothing is built
    or installed and the step returns normally at once. *)
Theorem provisioning_order (W : World) (inputs : context.Inputs) (h : trace) :
  let version := context.version inputs in
  let t := fst (provision W inputs h) in
  (on_isValidUrl W version = true ->
   installs t = [Build version (dockerConfigHome W)] /\ ~ In IsAvailable t) /\
  (on_isValidUrl W version = false ->
   forall available, on_isAvailable W h = Ok available ->
     (available = false \/ version <> "" ->
      installs t =
        [Install (if version =? "" then "latest" else version) (dockerConfigHome W)]) /\
     (available = true -> version = "" ->
      provision W inputs h = ([IsAvailable], Ok tt))).
Proof.
  intros version t. subst version t. unfold provision. unfold_calls. split.
  - intros ->. unfold bind, emit, ask. simpl.
    destruct (on_build W _ _ _); simpl; split; try reflexivity;
      intuition discriminate.
  - intros -> available Ha. split.
    + intros Hor. unfold bind at 1. unfold ask at 1. rewrite Ha.
      assert (E : negb available || truthy (context.version inputs) = true).
      { destruct Hor as [-> | Hv]; [reflexivity |].
        rewrite (truthy_true _ Hv). apply orb_true_r. }
      rewrite E. unfold truthy.
      destruct (context.version inputs =? ""); unfold bind, emit, ask; simpl;
        destruct (on_install W _ _ _); reflexivity.
    + intros -> Hv. unfold bind at 1. unfold ask at 1. rewrite Ha, Hv. reflexivity.
Qed.

Lemma provisioning_order_witness :
  (on_isValidUrl ci_world "https://github.com/docker/buildx.git#master" = true /\
   installs (fst (provision ci_world
                    (versioned_inputs "https://github.com/docker/buildx.git#master") []))
   = [Build "https://github.com/docker/buildx.git#master" "/home/runner/.docker"]) /\
  (on_isValidUrl ci_world "v0.9.1" = false /\
   on_isAvailable ci_world [] = Ok true /\
   installs (fst (provision ci_world (versioned_inputs "v0.9.1") []))
   = [Install "v0.9.1" "/home/runner/.docker"]) /\
  (on_isValidUrl ci_world "" = false /\
   on_isAvailable ci_world [] = Ok true /\
   provision ci_world (versioned_inputs "") [] = ([IsAvailable], Ok tt)).
Proof.
  split; [| split].
  - split; [reflexivity |].
    apply (proj1 (provisioning_order ci_world
                    (versioned_inputs "https://github.com/docker/buildx.git#master") [])).
    reflexivity.
  - split; [reflexivity |]. split; [reflexivity |].
    apply (proj2 (provisioning_order ci_world (versioned_inputs "v0.9.1") [])
             eq_refl true eq_refl).
    right. discriminate.
  - split; [reflexivity |]. split; [reflexivity |].
    apply (proj2 (provisioning_order ci_world (versioned_inputs "") [])
             eq_refl true eq_refl); reflexivity.
Defined.

(** ** Cleanup *)

Lemma length_pos s : (0 <? String.length s)%nat = negb (s =? "").
Proof. destruct s; reflexivity. Qed.

Lemma bind_ext {A B : Type} (m m' : M A) (f f' : A -> M B) h :
  (forall h, m h = m' h) -> (forall a h, f a h = f' a h) ->
  bind m f h = bind m' f' h.
Proof.
  intros Hm Hf. unfold bind. rewrite Hm.
  destruct (m' h) as [t [a | msg]]; [| reflexivity].
  now rewrite Hf.
Qed.

Lemma group_steps W title args h :
  (core_startGroup title;;
   res <- exec_getExecOutput W "docker" args;;
   warnOnFailure W res;;
   core_endGroup) h
  = groupStep W title args h.
Proof.
  unfold groupStep, commandStep, warnOnFailure, warning_of. unfold_calls.
  unfold bind, emit, ask. cbn [app].
  destruct (on_getExecOutput W (h ++ [StartGroup title]) "docker" args)
    as [res | msg]; [| reflexivity].
  destruct ((0 <? String.length (stderr res))%nat && negb (exitCode res =? 0)%Z);
    reflexivity.
Qed.

Lemma cleanup_steps W st h :
  cleanup W st h =
  ((if logsDue st
    then groupStep W "BuildKit container logs" ["logs"; stateHelper.containerName st]
    else ret tt);;
   (if removalDue st
    then groupStep W "Removing builder" ["buildx"; "rm"; stateHelper.builderName st]
    else ret tt)) h.
Proof.
  unfold cleanup, logsDue, removalDue. rewrite !length_pos.
  apply bind_ext.
  - intros h'. destruct (_ && _); [apply group_steps | reflexivity].
  - intros _ h'. destruct (negb _); [apply group_steps | reflexivity].
Qed.

Lemma cleanup_resolved W st h logs rm :
  (logsDue st = true ->
   on_getExecOutput W (h ++ [StartGroup "BuildKit container logs"])
     "docker" ["logs"; stateHelper.containerName st] = Ok logs) ->
  (removalDue st = true ->
   on_getExecOutput W (h ++ logsStep W st logs ++ [StartGroup "Removing builder"])
     "docker" ["buildx"; "rm"; stateHelper.builderName st] = Ok rm) ->
  cleanup W st h = (logsStep W st logs ++ removeStep W st rm, Ok tt).
Proof.
  intros Hl Hr. rewrite cleanup_steps. unfold logsStep, removeStep in *.
  unfold bind, groupStep, ret.
  destruct (logsDue st).
  - rewrite (Hl eq_refl). destruct (removalDue st).
    + rewrite <- app_assoc, (Hr eq_refl). reflexivity.
    + reflexivity.
  - destruct (removalDue st).
    + rewrite <- app_assoc. cbn [app] in *. rewrite (Hr eq_refl). reflexivity.
    + reflexivity.
Qed.

Lemma cleanup_rejected W st h t msg :
  cleanup W st h = (t, Throw msg) ->
  exists before title args,
    t = before ++ [StartGroup title; GetExecOutput "docker" args] /\
    on_getExecOutput W (h ++ before ++ [StartGroup title]) "docker" args = Throw msg /\
    (before = [] \/
     exists logs,
       logsDue st = true /\
       on_getExecOutput W (h ++ [StartGroup "BuildKit container logs"])
         "docker" ["logs"; stateHelper.containerName st] = Ok logs /\
       before = logsStep W st logs).
Proof.
  rewrite cleanup_steps. unfold logsStep. unfold bind, groupStep, ret.
  destruct (logsDue st).
  - destruct (on_getExecOutput W (h ++ [StartGroup "BuildKit container logs"])
                "docker" ["logs"; stateHelper.containerName st])
      as [logs | m] eqn:El.
    + destruct (removalDue st); [| discriminate].
      destruct (on_getExecOutput W _ "docker" ["buildx"; "rm"; _])
        as [rm | m] eqn:Er; intros [= <- <-].
      exists (commandStep W "BuildKit container logs"
                ["logs"; stateHelper.containerName st] logs),
        "Removing builder", ["buildx"; "rm"; stateHelper.builderName st].
      split; [reflexivity |].
      split; [rewrite <- Er; f_equal; now rewrite <- app_assoc |].
      right. exists logs. auto.
    + intros [= <- <-].
      exists [], "BuildKit container logs", ["logs"; stateHelper.containerName st].
      split; [reflexivity |]. split; [exact El | now left].
  - destruct (removalDue st); [| discriminate].
    destruct (on_getExecOutput W _ "docker" ["buildx"; "rm"; _])
      as [rm | m] eqn:Er; intros [= <- <-].
    exists [], "Removing builder", ["buildx"; "rm"; stateHelper.builderName st].
    split; [reflexivity |]. split; [| now left].
    rewrite <- Er. f_equal. now rewrite app_nil_r.
Qed.

Lemma cleanup_when_resolved W st h :
  commands_resolve W h (fst (cleanup W st h)) ->
  exists logs rm,
    (logsDue st = true ->
     on_getExecOutput W (h ++ [StartGroup "BuildKit container logs"])
       "docker" ["logs"; stateHelper.containerName st] = Ok logs) /\
    (removalDue st = true ->
     on_getExecOutput W (h ++ logsStep W st logs ++ [StartGroup "Removing builder"])
       "docker" ["buildx"; "rm"; stateHelper.builderName st] = Ok rm) /\
    cleanup W st h = (logsStep W st logs ++ removeStep W st rm, Ok tt).
Proof.
  intros Hres.
  assert (Hl : exists logs,
            logsDue st = true ->
            on_getExecOutput W (h ++ [StartGroup "BuildKit container logs"])
              "docker" ["logs"; stateHelper.containerName st] = Ok logs).
  { destruct (logsDue st) eqn:Ed; [| exists silent; discriminate].
    destruct (on_getExecOutput W (h ++ [StartGroup "BuildKit container logs"])
                "docker" ["logs"; stateHelper.containerName st])
      as [logs | m] eqn:El; [exists logs; reflexivity |].
    exfalso. revert Hres. rewrite cleanup_steps. unfold bind, groupStep.
    rewrite Ed, El. cbn [fst]. intros Hres.
    destruct (Hres [StartGroup "BuildKit container logs"]
                "docker" ["logs"; stateHelper.containerName st] [] eq_refl)
      as [res Hr].
    rewrite El in Hr. discriminate. }
  destruct Hl as [logs Hl].
  assert (Hr : exists rm,
            removalDue st = true ->
            on_getExecOutput W
              (h ++ logsStep W st logs ++ [StartGroup "Removing builder"])
              "docker" ["buildx"; "rm"; stateHelper.builderName st] = Ok rm).
  { destruct (removalDue st) eqn:Ed; [| exists silent; discriminate].
    destruct (on_getExecOutput W
                (h ++ logsStep W st logs ++ [StartGroup "Removing builder"])
                "docker" ["buildx"; "rm"; stateHelper.builderName st])
      as [rm | m] eqn:Er; [exists rm; reflexivity |].
    exfalso. revert Hres. rewrite cleanup_steps. unfold bind, groupStep, ret.
    revert Er. unfold logsStep.
    destruct (logsDue st).
    - rewrite (Hl eq_refl), Ed. intros Er. rewrite <- app_assoc, Er. cbn [fst].
      intros Hres.
      destruct (Hres (commandStep W "BuildKit container logs"
                        ["logs"; stateHelper.containerName st] logs
                      ++ [StartGroup "Removing builder"])
                  "docker" ["buildx"; "rm"; stateHelper.builderName st] [])
        as [res Hr].
      + now rewrite <- app_assoc.
      + rewrite Er in Hr. discriminate.
    - rewrite Ed. cbn [app]. intros Er. rewrite <- app_assoc. cbn [app].
      rewrite Er. cbn [fst]. intros Hres.
      destruct (Hres [StartGroup "Removing builder"]
                  "docker" ["buildx"; "rm"; stateHelper.builderName st] [] eq_refl)
        as [res Hr].
      rewrite Er in Hr. discriminate. }
  destruct Hr as [rm Hr].
  exists logs, rm. split; [exact Hl |]. split; [exact Hr |].
  now apply cleanup_resolved.
Qed.

(** C5, as stated, fails: the removal command of this job ends with exit
    code 1 and an empty stderr, and no warning is logged for it. *)
Lemma silent_failure_not_warned :
  cleanup_phase mute_world =
    [StartGroup "Removing builder";
     GetExecOutput "docker" ["buildx"; "rm"; "builder-ci"];
     EndGroup] /\
  on_getExecOutput mute_world [StartGroup "Removing builder"]
    "docker" ["buildx"; "rm"; "builder-ci"] = Ok failing_silently /\
  exitCode failing_silently = 1%Z /\
  ~ warns_on_every_failure mute_world (cleanup_phase mute_world).
Proof.
  split; [reflexivity |]. split; [reflexivity |]. split; [reflexivity |].
  intros H.
  destruct (H [StartGroup "Removing builder"] "docker"
              ["buildx"; "rm"; "builder-ci"] [EndGroup] failing_silently
              eq_refl eq_refl)
    as (msg & after' & Heq).
  - discriminate.
  - discriminate.
Qed.

Lemma well_warned_spec W t : forall h, well_warned W h t -> warns_when_stderr W h t.
Proof.
  induction t as [| e t IH]; intros h Hw before c args after res Heq Hres.
  - destruct before; discriminate.
  - destruct Hw as [He Ht]. destruct before as [| b before]; simpl in Heq.
    + injection Heq as -> ->. rewrite app_nil_r in Hres. exact (He res Hres).
    + injection Heq as -> ->.
      apply (IH _ Ht before c args after res eq_refl).
      rewrite <- app_assoc. exact Hres.
Qed.

Lemma well_warned_app W t1 : forall h t2,
  well_warned W h t1 -> well_warned W (h ++ t1) t2 ->
  well_warned W h (t1 ++ t2).
Proof.
  induction t1 as [| e t1 IH]; intros h t2 H1 H2; simpl in *.
  - now rewrite app_nil_r in H2.
  - destruct H1 as [He H1]. split.
    + destruct e; auto. intros res Hres. destruct (He res Hres) as [rest ->].
      rewrite <- app_assoc. simpl. eauto.
    + apply IH; auto. rewrite <- app_assoc. exact H2.
Qed.

Lemma well_warned_bind {A B : Type} W (m : M A) (f : A -> M B) h :
  well_warned W h (fst (m h)) ->
  (forall a, well_warned W (h ++ fst (m h)) (fst (f a (h ++ fst (m h))))) ->
  well_warned W h (fst (bind m f h)).
Proof.
  intros Hm Hf. unfold bind. destruct (m h) as [t1 [a | msg]]; [| exact Hm].
  specialize (Hf a). cbn [fst] in *.
  destruct (f a (h ++ t1)) as [t2 r]. cbn [fst] in *.
  now apply well_warned_app.
Qed.

Lemma groupStep_well_warned W h title args :
  well_warned W h (fst (groupStep W title args h)).
Proof.
  unfold groupStep.
  destruct (on_getExecOutput W (h ++ [StartGroup title]) "docker" args)
    as [res | msg] eqn:E; cbn [fst]; unfold commandStep; simpl.
  - split; [exact I |]. split.
    + intros res' Hres. rewrite E in Hres. injection Hres as <-. eauto.
    + unfold warning_of.
      destruct ((0 <? String.length (stderr res))%nat && negb (exitCode res =? 0)%Z);
        simpl; tauto.
  - split; [exact I |]. split; [| exact I].
    intros res' Hres. rewrite E in Hres. discriminate.
Qed.

Lemma cleanup_well_warned W st h : well_warned W h (fst (cleanup W st h)).
Proof.
  rewrite cleanup_steps. apply well_warned_bind.
  - destruct (logsDue st); [apply groupStep_well_warned | exact I].
  - intros _. destruct (removalDue st); [apply groupStep_well_warned | exact I].
Qed.

Lemma nothing_due st :
  stateHelper.builderName st = "" ->
  stateHelper.IsDebug st = false \/ stateHelper.containerName st = "" ->
  logsDue st = false /\ removalDue st = false.
Proof.
  unfold logsDue, removalDue. intros -> [-> | ->]; simpl;
    rewrite ?andb_false_r; auto.
Qed.

(** C5, amended. With no builder name saved and no logs due, cleanup does
    nothing at all and returns.  Every command that it issues and that
    resolves, whatever its exit code, is followed by a warning carrying
    the trimmed stderr when the exit code is non-zero and stderr is
    non-empty, by no warning otherwise, and then by the end of its group.
    A logs command that resolves, whatever its exit code, is followed by
    the removal command when a builder name is saved.  When its commands
    resolve, cleanup returns normally after the logs step, if due, and
    the removal step, if due: a non-zero exit code never keeps the later
    steps from running. *)
Theorem cleanup_ignores_exit_codes (W : World) (st : stateHelper.State) (h : trace) :
  (stateHelper.builderName st = "" ->
   stateHelper.IsDebug st = false \/ stateHelper.containerName st = "" ->
   cleanup W st h = ([], Ok tt)) /\
  warns_when_stderr W h (fst (cleanup W st h)) /\
  (forall res,
     warning_of W res =
       if negb (stderr res =? "") && negb (exitCode res =? 0)%Z
       then [Warning (on_trim W (stderr res))] else []) /\
  (forall logs,
     logsDue st = true ->
     removalDue st = true ->
     on_getExecOutput W (h ++ [StartGroup "BuildKit container logs"])
       "docker" ["logs"; stateHelper.containerName st] = Ok logs ->
     exists after,
       fst (cleanup W st h) =
         logsStep W st logs
           ++ StartGroup "Removing builder"
           :: GetExecOutput "docker" ["buildx"; "rm"; stateHelper.builderName st]
           :: after) /\
  (forall logs rm,
     (logsDue st = true ->
      on_getExecOutput W (h ++ [StartGroup "BuildKit container logs"])
        "docker" ["logs"; stateHelper.containerName st] = Ok logs) ->
     (removalDue st = true ->
      on_getExecOutput W (h ++ logsStep W st logs ++ [StartGroup "Removing builder"])
        "docker" ["buildx"; "rm"; stateHelper.builderName st] = Ok rm) ->
     cleanup W st h = (logsStep W st logs ++ removeStep W st rm, Ok tt)).
Proof.
  split; [| split; [| split; [| split]]].
  - intros Hb Hl. destruct (nothing_due st Hb Hl) as [Hld Hrd].
    rewrite (cleanup_resolved W st h silent silent).
    + unfold logsStep, removeStep. now rewrite Hld, Hrd.
    + rewrite Hld. discriminate.
    + rewrite Hrd. discriminate.
  - apply well_warned_spec, cleanup_well_warned.
  - intros res. unfold warning_of. now rewrite length_pos.
  - intros logs Hld Hrd Hl. rewrite cleanup_steps.
    unfold bind, groupStep, logsStep. rewrite Hld, Hrd, Hl.
    destruct (on_getExecOutput W _ "docker" ["buildx"; "rm"; _]) as [rm | msg];
      cbn [fst].
    + exists (warning_of W rm ++ [EndGroup]). reflexivity.
    + exists []. reflexivity.
  - intros logs rm. apply cleanup_resolved.
Qed.

Lemma cleanup_ignores_exit_codes_witness :
  logsDue (stateHelper.persisted (setup_phase loud_world)) = true /\
  removalDue (stateHelper.persisted (setup_phase loud_world)) = true /\
  exitCode failing_loudly = 1%Z /\
  cleanup loud_world (stateHelper.persisted (setup_phase loud_world)) [] =
    ([StartGroup "BuildKit container logs";
      GetExecOutput "docker" ["logs"; "buildx_buildkit_builder-ci0"];
      Warning "error: no builder found";
      EndGroup;
      StartGroup "Removing builder";
      GetExecOutput "docker" ["buildx"; "rm"; "builder-ci"];
      Warning "error: no builder found";
      EndGroup], Ok tt).
Proof.
  split; [reflexivity |]. split; [reflexivity |]. split; [reflexivity |].
  apply (proj2 (proj2 (proj2 (proj2
           (cleanup_ignores_exit_codes loud_world
              (stateHelper.persisted (setup_phase loud_world)) []))))
           failing_loudly failing_loudly);
    reflexivity.
Defined.

(** ** The state handed from setup to cleanup *)

Lemma fold_save_containerName t : forall st,
  (forall c, ~ In (SetContainerName c) t) ->
  stateHelper.containerName (fold_left stateHelper.save t st)
  = stateHelper.containerName st.
Proof.
  induction t as [| e t IH]; intros st Hno; simpl; [reflexivity |].
  rewrite IH by (intros c Hc; apply (Hno c); now right).
  destruct e; simpl; try reflexivity.
  exfalso. eapply Hno. left. reflexivity.
Qed.

Lemma fold_save_builderName d t : forall st,
  Forall (fun e => forall n, e = SetBuilderName n -> n = d) t ->
  (In (SetBuilderName d) t ->
   stateHelper.builderName (fold_left stateHelper.save t st) = d) /\
  (~ In (SetBuilderName d) t ->
   stateHelper.builderName (fold_left stateHelper.save t st)
   = stateHelper.builderName st).
Proof.
  induction t as [| e t IH]; intros st Hall; simpl.
  - tauto.
  - inversion Hall as [| ? ? He Ht]; subst.
    destruct (IH (stateHelper.save st e) Ht) as [IH1 IH2].
    split.
    + intros [-> | Hin]; [| auto].
      assert (Hd : In (SetBuilderName d) t \/ ~ In (SetBuilderName d) t).
      { clear. induction t as [| x t [IH | IH]]; simpl; [tauto | tauto |].
        destruct x; try (right; intros [H | H]; [discriminate | tauto]).
        match goal with
        | |- context [SetBuilderName ?n = _] =>
            destruct (String.eqb_spec n d) as [-> | Hne]; [tauto |]
        end.
        right. intros [[=] | H]; tauto. }
      destruct Hd as [Hin | Hnin]; [auto |]. rewrite IH2 by assumption. reflexivity.
    + intros Hnin. rewrite IH2 by tauto.
      destruct e; simpl; try reflexivity.
      rewrite (He _ eq_refl) in Hnin. tauto.
Qed.

Lemma cleanup_phase_unfold W :
  cleanup_phase W = fst (cleanup W (stateHelper.persisted (setup_phase W)) []).
Proof. reflexivity. Qed.

(** ** The docker driver *)

(** C2, as stated, fails: after a setup with the docker driver, cleanup
    does issue a removal command, for the builder named "default". *)
Lemma docker_default_removed :
  on_getInputs docker_world = Ok docker_inputs /\
  context.driver docker_inputs = "docker" /\
  cleanup_phase docker_world =
    [StartGroup "Removing builder";
     GetExecOutput "docker" ["buildx"; "rm"; "default"];
     EndGroup] /\
  existsb is_removal (cleanup_phase docker_world) = true.
Proof. repeat split. Qed.

Lemma builderName_docker inputs :
  context.driver inputs = "docker" -> builderName inputs = "default".
Proof. intros H. unfold builderName. now rewrite H. Qed.

Lemma docker_setup_events W inputs :
  on_getInputs W = Ok inputs ->
  context.driver inputs = "docker" ->
  emits (fun e => names_default e /\ is_create e = false /\ is_boot e = false /\
                  forall c, e <> SetContainerName c)
        (run W).
Proof.
  intros Hi Hd.
  apply emits_try_catch;
    [| intros msg; apply emits_emit; repeat split; discriminate].
  unfold setup, provision. unfold_calls. emits_tac.
  all: repeat match goal with
    | H : snd (ask GetInputs _ _) = Ok _ |- _ =>
        simpl in H; rewrite Hi in H; injection H as <-
    end.
  all: try rewrite Hd in *; try discriminate.
  all: try (repeat split; simpl; intros; discriminate || auto; fail).
  all: rewrite ?(builderName_docker _ Hd); repeat split; simpl; intros; discriminate || auto.
Qed.

Lemma Forall_impl_in {A : Type} (P Q : A -> Prop) (l : list A) :
  Forall P l -> (forall x, P x -> Q x) -> Forall Q l.
Proof. intros H HPQ. eapply Forall_impl; eauto. Qed.

(** C2, amended. With the docker driver, every builder name that setup
    reports or saves is "default" (and it does both when it completes),
    and setup issues neither a creation nor a boot command.  Cleanup
    then reads the saved name back: once setup has saved it, cleanup
    opens with the removal command for "default", and when that command
    resolves, whatever its exit code, cleanup consists of the removal
    step for "default"; if setup failed before saving the name, cleanup
    does nothing. *)
Theorem docker_driver_job (W : World) (inputs : context.Inputs) :
  on_getInputs W = Ok inputs ->
  context.driver inputs = "docker" ->
  Forall (fun e => names_default e /\ is_create e = false /\ is_boot e = false)
         (setup_phase W) /\
  (completes W ->
   In (SetOutput "name" (Some "default")) (setup_phase W) /\
   In (SetBuilderName "default") (setup_phase W)) /\
  (In (SetBuilderName "default") (setup_phase W) ->
   (exists after,
      cleanup_phase W =
        StartGroup "Removing builder"
          :: GetExecOutput "docker" ["buildx"; "rm"; "default"] :: after) /\
   (forall res,
      on_getExecOutput W [StartGroup "Removing builder"]
        "docker" ["buildx"; "rm"; "default"] = Ok res ->
      cleanup_phase W =
        commandStep W "Removing builder" ["buildx"; "rm"; "default"] res)) /\
  (~ In (SetBuilderName "default") (setup_phase W) -> cleanup_phase W = []).
Proof.
  intros Hi Hd.
  pose proof (docker_setup_events W inputs Hi Hd []) as Hev.
  change (fst (run W [])) with (setup_phase W) in Hev.
  assert (Hc : stateHelper.containerName (stateHelper.persisted (setup_phase W)) = "").
  { unfold stateHelper.persisted. simpl. rewrite fold_save_containerName; [reflexivity |].
    intros c Hin. rewrite Forall_forall in Hev.
    destruct (Hev _ Hin) as (_ & _ & _ & Hno). now apply (Hno c). }
  assert (Hld : logsDue (stateHelper.persisted (setup_phase W)) = false).
  { unfold logsDue. rewrite Hc. apply andb_false_r. }
  assert (Hn : Forall (fun e => forall n, e = SetBuilderName n -> n = "default")
                      (setup_phase W)).
  { eapply Forall_impl_in; [exact Hev |]. intros e (He & _) n ->. exact He. }
  destruct (fold_save_builderName "default" (setup_phase W) stateHelper.initial Hn)
    as [Hyes Hnot].
  split; [| split; [| split]].
  - eapply Forall_impl_in; [exact Hev |]. intros e (H1 & H2 & H3 & _). auto.
  - intros Hcomp. apply completes_trace in Hcomp.
    destruct (setup_success _ _ _ _ Hcomp)
      as (inputs' & builder & before & after & Hi' & Ht & _ & Ho & Hs & _).
    rewrite Hi in Hi'. injection Hi' as <-.
    rewrite (builderName_docker _ Hd) in *.
    split.
    + assert (Hin : In ("name", Some "default") (outputs (setup_phase W)))
        by (rewrite Ho; now left).
      unfold outputs in Hin. apply in_flat_map in Hin.
      destruct Hin as (e & He & Hin). destruct e; simpl in Hin; try contradiction.
      destruct Hin as [[= -> ->] | []]. exact He.
    + assert (Hin : In (SetBuilderName "default") (saves (setup_phase W)))
        by (rewrite Hs; now left).
      unfold saves in Hin. apply filter_In in Hin. tauto.
  - intros Hin.
    assert (Hname : stateHelper.builderName (stateHelper.persisted (setup_phase W))
                    = "default") by exact (Hyes Hin).
    assert (Hrd : removalDue (stateHelper.persisted (setup_phase W)) = true).
    { unfold removalDue. now rewrite Hname. }
    split.
    + rewrite cleanup_phase_unfold, cleanup_steps. unfold bind, groupStep, ret.
      rewrite Hld, Hrd, Hname. cbn [app].
      destruct (on_getExecOutput W [StartGroup "Removing builder"] "docker"
                  ["buildx"; "rm"; "default"]);
        cbn [fst]; eexists; reflexivity.
    + intros res Hres. rewrite cleanup_phase_unfold.
      rewrite (cleanup_resolved W _ [] silent res).
      * unfold logsStep, removeStep. now rewrite Hld, Hrd, Hname.
      * rewrite Hld. discriminate.
      * intros _. unfold logsStep. rewrite Hld, Hname. exact Hres.
  - intros Hnin.
    assert (Hname : stateHelper.builderName (stateHelper.persisted (setup_phase W))
                    = "") by exact (Hnot Hnin).
    assert (Hrd : removalDue (stateHelper.persisted (setup_phase W)) = false).
    { unfold removalDue. now rewrite Hname. }
    rewrite cleanup_phase_unfold.
    rewrite (cleanup_resolved W _ [] silent silent).
    + unfold logsStep, removeStep. now rewrite Hld, Hrd.
    + rewrite Hld. discriminate.
    + rewrite Hrd. discriminate.
Qed.

Lemma docker_driver_job_witness :
  on_getInputs docker_world = Ok docker_inputs /\
  context.driver docker_inputs = "docker" /\
  completes docker_world /\
  In (SetOutput "name" (Some "default")) (setup_phase docker_world) /\
  In (SetBuilderName "default") (setup_phase docker_world) /\
  on_getExecOutput docker_world [StartGroup "Removing builder"]
    "docker" ["buildx"; "rm"; "default"] = Ok silent /\
  cleanup_phase docker_world =
    commandStep docker_world "Removing builder" ["buildx"; "rm"; "default"] silent.
Proof.
  pose proof (docker_driver_job docker_world docker_inputs eq_refl eq_refl)
    as (_ & Hnames & Hrm & _).
  assert (Hc : completes docker_world) by reflexivity.
  split; [reflexivity |]. split; [reflexivity |]. split; [exact Hc |].
  split; [exact (proj1 (Hnames Hc)) |]. split; [exact (proj2 (Hnames Hc)) |].
  split; [reflexivity |].
  exact (proj2 (Hrm (proj2 (Hnames Hc))) silent eq_refl).
Defined.

(** ** The container name *)

Lemma bind_inv {A B : Type} (m : M A) (f : A -> M B) h t r :
  bind m f h = (t, r) ->
  (exists msg, m h = (t, Throw msg) /\ r = Throw msg) \/
  (exists t1 a t2, m h = (t1, Ok a) /\ f a (h ++ t1) = (t2, r) /\ t = t1 ++ t2).
Proof.
  unfold bind. destruct (m h) as [t1 [a | msg]].
  - destruct (f a (h ++ t1)) as [t2 r2] eqn:Hf. intros [= <- <-]. right.
    now exists t1, a, t2.
  - intros [= <- <-]. left. now exists msg.
Qed.

Lemma ask_inv {A : Type} e (answer : trace -> result A) h t r :
  ask e answer h = (t, r) -> t = [e] /\ answer h = r.
Proof. unfold ask. now intros [= <- <-]. Qed.

Lemma plain_no_container t c : Forall plain t -> ~ In (SetContainerName c) t.
Proof.
  intros Hp Hin. rewrite Forall_forall in Hp. destruct (Hp _ Hin) as [H _].
  simpl in H. discriminate.
Qed.

(** Closes a goal in which a container name is said to be saved in a
    trace that holds no such call. *)
Ltac no_container Hin :=
  exfalso;
  repeat rewrite in_app_iff in Hin; simpl in Hin;
  match type of Hin with
  | context [In (SetContainerName ?c) _] =>
      repeat match goal with
      | Hp : Forall plain ?t |- _ =>
          pose proof (plain_no_container t c Hp); clear Hp
      end
  | _ => idtac
  end;
  intuition discriminate.

Ltac any_step H Hin :=
  let t1 := fresh "t" in
  let a := fresh "a" in
  let t2 := fresh "t" in
  let msg := fresh "msg" in
  let Hm := fresh "Hm" in
  apply bind_inv in H;
  destruct H as [(msg & Hm & ->) | (t1 & a & t2 & Hm & H & ->)];
  [ first
      [ discriminate Hm
      | apply ask_inv in Hm; destruct Hm as [-> Hm]; no_container Hin
      | match type of Hm with
        | provision ?W ?i ?h0 = _ =>
            let Hp := fresh "Hp" in
            pose proof (provision_plain W i h0) as Hp;
            rewrite Hm in Hp; simpl in Hp; no_container Hin
        | _ => plain_block Hm; no_container Hin
        end ]
  | first
      [ apply emit_inv in Hm; subst t1
      | apply ask_ok_inv in Hm; destruct Hm as [-> Hm]
      | match type of Hm with
        | provision ?W ?i ?h0 = _ =>
            let Hp := fresh "Hp" in
            pose proof (provision_plain W i h0) as Hp;
            rewrite Hm in Hp; simpl in Hp; clear Hm
        | _ => plain_block Hm; clear Hm
        end ] ].

Lemma setup_container_name W h t r c :
  setup W h = (t, r) ->
  In (SetContainerName c) t ->
  exists inputs builder before after,
    on_getInputs W = Ok inputs /\
    context.driver inputs = "docker-container" /\
    t = before ++ Inspect (builderName inputs) :: after /\
    on_inspect W (h ++ before) (builderName inputs) = Ok builder /\
    c = ("buildx_buildkit_" ++ buildx.node_name builder)%string.
Proof.
  unfold setup. unfold_calls. intros H Hin.
  do 19 any_step H Hin.
  match goal with
  | Hi : on_getInputs _ = Ok ?i, Hb : on_inspect _ _ _ = Ok ?b |- _ =>
      exists i, b; rewrite <- !app_assoc in Hb;
      match type of Hb with
      | on_inspect _ (_ ++ ?before) _ = _ => exists before
      end
  end.
  eexists.
  match goal with
  | |- _ /\ _ /\ ?G /\ _ =>
      assert (Ht : G) by (repeat (rewrite <- app_assoc || simpl); reflexivity)
  end.
  match goal with
  | Hi : on_getInputs _ = Ok ?i, Hb : on_inspect _ _ _ = Ok ?b,
    H' : ?m ?h0 = (?t3, r) |- _ =>
      assert (Hin3 : In (SetContainerName c) t3) by
        (repeat rewrite in_app_iff in Hin; simpl in Hin;
         repeat match goal with
         | Hp : Forall plain ?t |- _ =>
             pose proof (plain_no_container t c Hp); clear Hp
         end;
         intuition discriminate);
      assert (E : emits (fun e => forall c', e = SetContainerName c' ->
                           context.driver i = "docker-container" /\
                           c' = ("buildx_buildkit_" ++ buildx.node_name b)%string) m)
        by (emits_tac; intros c' [=];
            match goal with
            | Hc : (_ =? _) = true |- _ => apply String.eqb_eq in Hc
            end; subst; auto);
      specialize (E h0); rewrite H' in E; simpl in E;
      rewrite Forall_forall in E; destruct (E _ Hin3 c eq_refl) as [Hd Hc]
  end.
  tauto.
Qed.

(** The trace of a setup phase is that of its [try] block, followed by
    the report of its failure if it failed. *)
Lemma setup_phase_cases W :
  setup W [] = (setup_phase W, Ok tt) \/
  exists t msg, setup W [] = (t, Throw msg) /\ setup_phase W = t ++ [SetFailed msg].
Proof.
  rewrite setup_phase_unfold, run_unfold.
  destruct (setup W []) as [t [[] | msg]]; simpl; eauto.
Qed.

Lemma cleanup_logs_only_when W st :
  emits (fun e => is_logs e = true ->
           stateHelper.IsDebug st = true /\
           stateHelper.containerName st <> "" /\
           e = GetExecOutput "docker" ["logs"; stateHelper.containerName st])
        (cleanup W st).
Proof.
  unfold cleanup, warnOnFailure. unfold_calls. emits_tac.
  all: try (intros [=]; fail).
  match goal with
  | Hc : _ && _ = true |- _ =>
      apply andb_true_iff in Hc; destruct Hc as [Hdbg Hlen]
  end.
  intros _. split; [exact Hdbg |]. split; [| reflexivity].
  intros Hempty. rewrite Hempty in Hlen. discriminate.
Qed.


(** C10. A container name is saved during setup only for the
    docker-container driver, and it is then "buildx_buildkit_" followed
    by the node name of the builder that the inspect call of this run
    returned.  Cleanup issues the container-logs command only when the
    saved debug flag is set and the saved container name is non-empty,
    and then for that container.  So after a setup with any other
    driver, cleanup fetches no container logs. *)
Theorem container_logs_policy (W : World) :
  (forall c, In (SetContainerName c) (setup_phase W) ->
     exists inputs builder before after,
       on_getInputs W = Ok inputs /\
       context.driver inputs = "docker-container" /\
       setup_phase W = before ++ Inspect (builderName inputs) :: after /\
       on_inspect W before (builderName inputs) = Ok builder /\
       c = ("buildx_buildkit_" ++ buildx.node_name builder)%string) /\
  (forall st h e, In e (fst (cleanup W st h)) -> is_logs e = true ->
     stateHelper.IsDebug st = true /\
     stateHelper.containerName st <> "" /\
     e = GetExecOutput "docker" ["logs"; stateHelper.containerName st]) /\
  (forall inputs, on_getInputs W = Ok inputs ->
     context.driver inputs <> "docker-container" ->
     Forall (fun e => is_logs e = false) (cleanup_phase W)).
Proof.
  assert (Ha : forall c, In (SetContainerName c) (setup_phase W) ->
     exists inputs builder before after,
       on_getInputs W = Ok inputs /\
       context.driver inputs = "docker-container" /\
       setup_phase W = before ++ Inspect (builderName inputs) :: after /\
       on_inspect W before (builderName inputs) = Ok builder /\
       c = ("buildx_buildkit_" ++ buildx.node_name builder)%string).
  { intros c Hin.
    destruct (setup_phase_cases W) as [Hs | (t & msg & Hs & Ht)].
    - exact (setup_container_name _ _ _ _ _ Hs Hin).
    - rewrite Ht in Hin. apply in_app_or in Hin.
      destruct Hin as [Hin | [[=] | []]].
      destruct (setup_container_name _ _ _ _ _ Hs Hin)
        as (inputs & builder & before & after & Hi & Hd & Heq & Hb & Hc).
      exists inputs, builder, before, (after ++ [SetFailed msg]).
      rewrite Ht, Heq, <- app_assoc. auto. }
  assert (Hb : forall st h e, In e (fst (cleanup W st h)) -> is_logs e = true ->
     stateHelper.IsDebug st = true /\
     stateHelper.containerName st <> "" /\
     e = GetExecOutput "docker" ["logs"; stateHelper.containerName st]).
  { intros st h e Hin. pose proof (cleanup_logs_only_when W st h) as Hall.
    rewrite Forall_forall in Hall. exact (Hall e Hin). }
  split; [exact Ha |]. split; [exact Hb |].
  intros inputs Hi Hd. apply Forall_forall. intros e Hin.
  destruct (is_logs e) eqn:Hl; [exfalso | reflexivity].
  rewrite cleanup_phase_unfold in Hin.
  destruct (Hb _ _ _ Hin Hl) as (_ & Hne & _). apply Hne.
  unfold stateHelper.persisted. simpl. rewrite fold_save_containerName; [reflexivity |].
  intros c Hc. destruct (Ha c Hc) as (inputs' & _ & _ & _ & Hi' & Hd' & _).
  rewrite Hi in Hi'. injection Hi' as <-. contradiction.
Qed.

Lemma container_logs_policy_witness :
  (In (SetContainerName "buildx_buildkit_builder-ci0") (setup_phase ci_world) /\
   exists inputs builder before after,
     on_getInputs ci_world = Ok inputs /\
     context.driver inputs = "docker-container" /\
     setup_phase ci_world = before ++ Inspect (builderName inputs) :: after /\
     on_inspect ci_world before (builderName inputs) = Ok builder /\
     "buildx_buildkit_builder-ci0"
     = ("buildx_buildkit_" ++ buildx.node_name builder)%string) /\
  (on_getInputs docker_world = Ok docker_inputs /\
   context.driver docker_inputs <> "docker-container" /\
   Forall (fun e => is_logs e = false) (cleanup_phase docker_world)).
Proof.
  assert (Hin : In (SetContainerName "buildx_buildkit_builder-ci0")
                   (setup_phase ci_world))
    by (vm_compute; tauto).
  split.
  - split; [exact Hin |].
    exact (proj1 (container_logs_policy ci_world) _ Hin).
  - split; [reflexivity |]. split; [discriminate |].
    apply (proj2 (proj2 (container_logs_policy docker_world)) docker_inputs);
      [reflexivity | discriminate].
Defined.

(** ** The debug flag *)




(** A run that fails: the setup stops at the failing call, the message
    of its error is reported, and what was saved before stays saved. *)
Example run_reports_failure :
  skipn 25 (setup_phase broken_world) =
    [StartGroup "BuildKit version";
     GetBuildKitVersion "buildx_buildkit_builder-ci0";
     SetFailed "container not found"] /\
  saves (setup_phase broken_world) =
    [SetBuilderName "builder-ci"; SetContainerName "buildx_buildkit_builder-ci0"] /\
  thrown broken_world (firstn 26 (setup_phase broken_world))
    (GetBuildKitVersion "buildx_buildkit_builder-ci0") = Some "container not found".
Proof. split; [reflexivity |]. split; reflexivity. Qed.

(** ** Taking an action apart *)

Lemma bind_throw_inv {A B : Type} (m : M A) (f : A -> M B) h t msg :
  bind m f h = (t, Throw msg) ->
  m h = (t, Throw msg) \/
  exists t1 a t2, m h = (t1, Ok a) /\ f a (h ++ t1) = (t2, Throw msg) /\ t = t1 ++ t2.
Proof.
  intros H. apply bind_inv in H.
  destruct H as [(msg' & Hm & [= <-]) | H]; [left; exact Hm | right; exact H].
Qed.

Lemma emit_throw_inv e h t msg : emit e h = (t, Throw msg) -> False.
Proof. discriminate. Qed.

Lemma ret_throw_inv {A : Type} (a : A) h t msg : ret a h = (t, Throw msg) -> False.
Proof. discriminate. Qed.

Lemma ask_throw_inv {A : Type} e (answer : trace -> result A) h t msg :
  ask e answer h = (t, Throw msg) -> t = [e] /\ answer h = Throw msg.
Proof. unfold ask. now intros [= <- ->]. Qed.

Lemma ret_ok_inv {A : Type} (a b : A) h t : ret a h = (t, Ok b) -> t = [] /\ b = a.
Proof. now intros [= <- <-]. Qed.

Lemma peek_ok_inv {A : Type} (f : trace -> A) h t a :
  peek f h = (t, Ok a) -> t = [] /\ a = f h.
Proof. now intros [= <- <-]. Qed.

Lemma peek_throw_inv {A : Type} (f : trace -> A) h t msg :
  peek f h = (t, Throw msg) -> False.
Proof. discriminate. Qed.

(** Takes [H : m h = (t, Ok a)] or [H : m h = (t, Throw msg)] apart, down
    to the answers of the world; a step that is a named action of its
    own, as the provisioning, is left whole. *)
Ltac inv_action H :=
  lazymatch type of H with
  | provision _ _ _ = _ => idtac
  | (if ?c then _ else _) _ = _ =>
      let Hc := fresh "Hc" in
      destruct c eqn:Hc; inv_action H
  | bind _ _ _ = (_, Ok _) =>
      let t1 := fresh "t" in
      let a := fresh "a" in
      let t2 := fresh "t" in
      let Hm := fresh "Hm" in
      apply bind_ok_inv in H; destruct H as (t1 & a & t2 & Hm & H & ->);
      inv_action Hm; inv_action H
  | bind _ _ _ = (_, Throw _) =>
      let t1 := fresh "t" in
      let a := fresh "a" in
      let t2 := fresh "t" in
      let Hm := fresh "Hm" in
      apply bind_throw_inv in H;
      destruct H as [H | (t1 & a & t2 & Hm & H & ->)];
      [ inv_action H | inv_action Hm; inv_action H ]
  | emit _ _ = (_, Ok _) => apply emit_inv in H; subst
  | emit _ _ = (_, Throw _) => exfalso; exact (emit_throw_inv _ _ _ _ H)
  | ret _ _ = (_, Ok _) =>
      apply ret_ok_inv in H; let E := fresh "E" in destruct H as [E H]; subst
  | peek _ _ = (_, Ok _) =>
      apply peek_ok_inv in H; let E := fresh "E" in destruct H as [E H]; subst
  | peek _ _ = (_, Throw _) => exfalso; exact (peek_throw_inv _ _ _ _ H)
  | ret _ _ = (_, Throw _) => exfalso; exact (ret_throw_inv _ _ _ _ H)
  | ask _ _ _ = (_, Ok _) =>
      apply ask_ok_inv in H; let E := fresh "E" in destruct H as [E H]; subst
  | ask _ _ _ = (_, Throw _) =>
      apply ask_throw_inv in H; let E := fresh "E" in destruct H as [E H]; subst
  | _ => idtac
  end.

(** ** The steps of a completed setup *)

Lemma setup_completed W h t u :
  setup W h = (t, Ok u) ->
  exists inputs provisioning buildxVersion builder buildkitVersion,
    on_getInputs W = Ok inputs /\
    provision W inputs (h ++ preflightSteps) = (provisioning, Ok tt) /\
    on_getVersion W (h ++ preflightSteps ++ provisioning) = Ok buildxVersion /\
    (exists before after,
       t = before ++ Inspect (builderName inputs) :: after /\
       on_inspect W (h ++ before) (builderName inputs) = Ok builder) /\
    t = completedSteps W inputs provisioning buildxVersion builder buildkitVersion.
Proof.
  unfold setup. unfold_calls. intros H. inv_action H.
  all: match goal with
    | Hi : on_getInputs _ = Ok ?i, Hp : provision _ _ _ = (?tp, Ok ?a),
      Hv : on_getVersion _ _ = Ok ?v, Hb : on_inspect _ _ _ = Ok ?b |- _ =>
        exists i, tp, v, b; destruct a;
        first [ match goal with
                | Hk : on_getBuildKitVersion _ _ _ = Ok ?k |- _ => exists k
                end
              | exists "" ];
        unfold preflightSteps; rewrite <- ?app_assoc in Hp; rewrite <- ?app_assoc in Hv;
        split; [exact Hi |]; split; [exact Hp |]; split; [exact Hv |];
        split;
        [ rewrite <- ?app_assoc in Hb;
          match type of Hb with
          | on_inspect _ (_ ++ ?before) _ = _ =>
              exists before; eexists; split; [| exact Hb];
              repeat (rewrite <- app_assoc || cbn [app]); reflexivity
          end
        | ]
    end.
  all: unfold completedSteps, preflightSteps, createBootSteps, installSteps,
         inspectSteps, buildkitSteps, debugSaves.
  all: repeat match goal with
    | Hc : ?c = _ |- context [if ?c then _ else _] => rewrite Hc
    end.
  all: repeat (rewrite <- app_assoc || cbn [app]); reflexivity.
Qed.

Lemma builderName_nonempty inputs : (builderName inputs =? "") = false.
Proof.
  unfold builderName. destruct (context.driver inputs =? "docker"); reflexivity.
Qed.

(** X1. A setup that completes has done exactly this, in this order: the
    docker preflight and the reading of the inputs, the provisioning of
    buildx, the reading of its version, the report and the saving of the
    builder name, the creation and the boot of the builder unless the
    driver is docker, the registration as default builder if asked for,
    the inspection and its five outputs, the saving of the container name
    and the BuildKit version for the docker-container driver, and last the
    saving of the debug flag if debugging is requested. *)
Theorem completed_setup_steps (W : World) :
  completes W ->
  exists inputs provisioning buildxVersion builder buildkitVersion,
    on_getInputs W = Ok inputs /\
    provision W inputs preflightSteps = (provisioning, Ok tt) /\
    on_getVersion W (preflightSteps ++ provisioning) = Ok buildxVersion /\
    inspected W builder /\
    setup_phase W =
      completedSteps W inputs provisioning buildxVersion builder buildkitVersion.
Proof.
  intros Hc. apply completes_trace in Hc.
  destruct (setup_completed _ _ _ _ Hc)
    as (inputs & tp & v & b & k & Hi & Hp & Hv & (before & after & Ht & Hb) & Hs).
  exists inputs, tp, v, b, k. repeat split; auto.
  exists before, after, (builderName inputs). auto.
Qed.

Lemma completed_setup_steps_witness :
  completes ci_world /\
  exists inputs provisioning buildxVersion builder buildkitVersion,
    on_getInputs ci_world = Ok inputs /\
    provision ci_world inputs preflightSteps = (provisioning, Ok tt) /\
    on_getVersion ci_world (preflightSteps ++ provisioning) = Ok buildxVersion /\
    inspected ci_world builder /\
    setup_phase ci_world =
      completedSteps ci_world inputs provisioning buildxVersion builder buildkitVersion.
Proof.
  split; [reflexivity |]. apply (completed_setup_steps ci_world). reflexivity.
Defined.

Lemma cleanup_logs_exactly_when_due W st h :
  existsb is_logs (fst (cleanup W st h)) = logsDue st.
Proof.
  rewrite cleanup_steps. unfold bind, groupStep, ret, commandStep, warning_of.
  destruct (logsDue st); destruct (removalDue st); cbv beta iota;
    repeat match goal with
    | |- context [on_getExecOutput ?W0 ?h0 ?c ?a] =>
        destruct (on_getExecOutput W0 h0 c a); cbv beta iota
    | |- context [if ?b then [Warning _] else []] => destruct b
    end;
    reflexivity.
Qed.

Lemma persisted_after_setup W inputs builder t :
  saves t = SetBuilderName (builderName inputs)
              :: containerSaves inputs builder ++ debugSaves W builder ->
  logsDue (stateHelper.persisted t) = logsAsked W inputs builder /\
  removalDue (stateHelper.persisted t) = true /\
  stateHelper.builderName (stateHelper.persisted t) = builderName inputs /\
  (logsAsked W inputs builder = true ->
   stateHelper.containerName (stateHelper.persisted t) = containerOf builder).
Proof.
  intros Hs. rewrite persisted_saves, Hs.
  unfold logsDue, removalDue, logsAsked, containerSaves, debugSaves, containerOf.
  destruct (context.driver inputs =? "docker-container");
    destruct (debugRequested W builder);
    cbn [stateHelper.persisted stateHelper.save fold_left stateHelper.initial
         stateHelper.IsDebug stateHelper.builderName stateHelper.containerName
         stateHelper.IsPost app andb negb];
    rewrite ?builderName_nonempty;
    repeat split; try discriminate; reflexivity.
Qed.

(** X2. After a setup that completes, cleanup asks for the logs of the
    BuildKit container exactly when the driver is docker-container and
    debugging was requested, for the container named after the inspected
    node.  When that command, if any, resolves, cleanup goes on to the
    removal of the builder under the name that setup reported, and when
    the removal resolves too, whatever the exit codes, cleanup consists
    of these steps and nothing else. *)
Theorem cleanup_after_completed_setup (W : World) :
  completes W ->
  exists inputs builder,
    on_getInputs W = Ok inputs /\
    inspected W builder /\
    In (SetOutput "name" (Some (builderName inputs))) (setup_phase W) /\
    existsb is_logs (cleanup_phase W) = logsAsked W inputs builder /\
    forall logs rm,
      (logsAsked W inputs builder = true ->
       on_getExecOutput W [StartGroup "BuildKit container logs"]
         "docker" ["logs"; containerOf builder] = Ok logs) ->
      on_getExecOutput W
        (logsSteps W inputs builder logs ++ [StartGroup "Removing builder"])
        "docker" ["buildx"; "rm"; builderName inputs] = Ok rm ->
      cleanup_phase W = cleanupSteps W inputs builder logs rm.
Proof.
  intros Hc. apply completes_trace in Hc.
  destruct (setup_success _ _ _ _ Hc)
    as (inputs & builder & before & after & Hi & Ht & Hb & Ho & Hs & _).
  exists inputs, builder. split; [exact Hi |]. split.
  { exists before, after, (builderName inputs). auto. }
  split.
  { assert (Hin : In ("name", Some (builderName inputs)) (outputs (setup_phase W)))
      by (rewrite Ho; now left).
    unfold outputs in Hin. apply in_flat_map in Hin.
    destruct Hin as (e & He & Hin). destruct e; cbn [In] in Hin; try contradiction.
    destruct Hin as [[= -> ->] | []]. exact He. }
  destruct (persisted_after_setup W inputs builder _ Hs) as (Hld & Hrd & Hn & Hcn).
  split.
  { rewrite cleanup_phase_unfold, cleanup_logs_exactly_when_due. exact Hld. }
  intros logs rm Hl Hr.
  assert (Hsteps : logsStep W (stateHelper.persisted (setup_phase W)) logs
                   = logsSteps W inputs builder logs).
  { unfold logsStep, logsSteps. rewrite Hld.
    destruct (logsAsked W inputs builder); [| reflexivity].
    now rewrite (Hcn eq_refl). }
  rewrite cleanup_phase_unfold.
  rewrite (cleanup_resolved W _ [] logs rm).
  - unfold cleanupSteps, removeStep. now rewrite Hsteps, Hrd, Hn.
  - rewrite Hld. intros Hq. rewrite (Hcn Hq). exact (Hl Hq).
  - intros _. rewrite Hsteps, Hn. exact Hr.
Qed.

Lemma cleanup_after_completed_setup_witness :
  completes loud_world /\
  exists inputs builder,
    on_getInputs loud_world = Ok inputs /\
    inspected loud_world builder /\
    In (SetOutput "name" (Some (builderName inputs))) (setup_phase loud_world) /\
    existsb is_logs (cleanup_phase loud_world) = logsAsked loud_world inputs builder /\
    logsAsked loud_world inputs builder = true /\
    cleanup_phase loud_world =
      cleanupSteps loud_world inputs builder failing_loudly failing_loudly.
Proof.
  split; [reflexivity |].
  destruct (cleanup_after_completed_setup loud_world eq_refl)
    as (inputs & builder & Hi & Hb & Hn & Hl & Hsteps).
  exists inputs, builder.
  split; [exact Hi |]. split; [exact Hb |]. split; [exact Hn |].
  split; [exact Hl |]. split; [rewrite <- Hl; reflexivity |].
  apply Hsteps; reflexivity.
Defined.

(** ** The builder name, from setup to cleanup *)

Lemma provision_builder_free W inputs : emits builder_free (provision W inputs).
Proof.
  unfold provision. unfold_calls. emits_tac; repeat split; discriminate.
Qed.

(** One step of a sequence, for either outcome. *)
Ltac head_step H :=
  let t1 := fresh "t" in
  let a := fresh "a" in
  let t2 := fresh "t" in
  let msg := fresh "msg" in
  let Hm := fresh "Hm" in
  apply bind_inv in H;
  destruct H as [(msg & Hm & ->) | (t1 & a & t2 & Hm & H & ->)];
  [ inv_action Hm | inv_action Hm ].

Lemma split_after_prefix {A : Type} (P : A -> Prop) (pre : list A) :
  forall before e after post,
    Forall P pre -> ~ P e -> pre ++ post = before ++ e :: after ->
    exists mid, before = pre ++ mid /\ post = mid ++ e :: after.
Proof.
  induction pre as [| x pre IH]; intros before e after post Hall He Heq.
  - exists before. auto.
  - inversion Hall as [| ? ? Hx Hpre]; subst.
    destruct before as [| b before]; cbn [app] in Heq; injection Heq as -> Heq.
    + contradiction.
    + destruct (IH _ _ _ _ Hpre He Heq) as (mid & -> & ->). exists mid. auto.
Qed.

Lemma split_before_last {A : Type} (t before : list A) (x e : A) (after : list A) :
  t ++ [x] = before ++ e :: after -> e <> x ->
  exists after', t = before ++ e :: after' /\ after = after' ++ [x].
Proof.
  intros Heq Hne. destruct after as [| y after _] using rev_ind.
  - apply app_inj_tail in Heq. destruct Heq as [_ <-]. contradiction.
  - change (before ++ e :: after ++ [y]) with (before ++ (e :: after) ++ [y]) in Heq.
    rewrite app_assoc in Heq. apply app_inj_tail in Heq. destruct Heq as [-> ->].
    exists after. auto.
Qed.

Lemma setup_name_prefix W h t r :
  setup W h = (t, r) ->
  Forall builder_free t \/
  exists inputs pre post,
    on_getInputs W = Ok inputs /\
    Forall builder_free pre /\
    t = pre ++ SetOutput "name" (Some (builderName inputs))
              :: SetBuilderName (builderName inputs) :: post.
Proof.
  unfold setup. unfold_calls. intros H.
  do 9 (try head_step H).
  all: repeat match goal with
    | Hp : provision ?W0 ?i ?h0 = _ |- _ =>
        let Hf := fresh "Hf" in
        pose proof (provision_builder_free W0 i h0) as Hf;
        rewrite Hp in Hf; cbn [fst] in Hf; clear Hp
    end.
  all: try (left; repeat (apply Forall_app; split); try assumption;
            repeat constructor; discriminate).
  right.
  match goal with
  | Hi : on_getInputs _ = Ok ?i, Hf : Forall builder_free ?tp
    |- context [_ ++ ?post = _] =>
      exists i,
        ([StartGroup "Docker info"; Exec "docker" ["version"];
          Exec "docker" ["info"]; EndGroup; GetInputs] ++ tp ++ [GetVersion]);
      eexists; split; [exact Hi |]; split;
      [ repeat (apply Forall_app; split); try assumption;
        repeat constructor; discriminate
      | repeat (rewrite <- app_assoc || cbn [app]); reflexivity ]
  end.
Qed.

Lemma name_saved_before_creation W h t r :
  setup W h = (t, r) ->
  forall before e after,
    t = before ++ e :: after -> is_create e = true ->
    exists inputs,
      on_getInputs W = Ok inputs /\
      In (SetOutput "name" (Some (builderName inputs))) before /\
      In (SetBuilderName (builderName inputs)) before.
Proof.
  intros Hs before e after Ht Hcr.
  destruct (setup_name_prefix _ _ _ _ Hs)
    as [Hfree | (inputs & pre & post & Hi & Hpre & Heq)].
  - exfalso. subst t. apply Forall_app in Hfree. destruct Hfree as [_ Hfree].
    inversion Hfree as [| ? ? (Hc & _) _]; subst. rewrite Hc in Hcr. discriminate.
  - exists inputs. split; [exact Hi |].
    assert (Hall : Forall (fun x => is_create x = false)
                     (pre ++ [SetOutput "name" (Some (builderName inputs));
                              SetBuilderName (builderName inputs)])).
    { apply Forall_app. split.
      - eapply Forall_impl; [| exact Hpre]. intros x (Hx & _). exact Hx.
      - repeat constructor. }
    destruct (split_after_prefix _ _ before e after post Hall) as (mid & -> & _).
    + rewrite Hcr. discriminate.
    + rewrite <- Ht, Heq, <- app_assoc. reflexivity.
    + split; apply in_or_app; left; apply in_or_app; right; cbn [In]; auto.
Qed.

Lemma run_saves_input_name W inputs :
  on_getInputs W = Ok inputs ->
  emits (fun e => forall n, e = SetBuilderName n -> n = builderName inputs) (run W).
Proof.
  intros Hi.
  apply emits_try_catch; [| intros msg; apply emits_emit; discriminate].
  unfold setup, provision. unfold_calls. emits_tac.
  all: repeat match goal with
    | H : snd (ask GetInputs _ _) = Ok _ |- _ =>
        cbn [snd ask] in H; rewrite Hi in H; injection H as <-
    end.
  all: intros n [=]; auto.
Qed.

(** X3. No builder is left behind by a cleanup whose commands resolve.
    Whenever a run issues a creation command, it is for the builder named
    after the inputs, and that name has been reported and saved before
    the command is issued.  So, whether the creation, or anything after
    it, failed or not, the cleanup phase of the job, when the commands it
    issues resolve, ends with the removal step for the builder of that
    name. *)
Theorem created_builder_is_removed (W : World) (inputs : context.Inputs) :
  on_getInputs W = Ok inputs ->
  forall before e after,
    setup_phase W = before ++ e :: after -> is_create e = true ->
    (exists hv buildxVersion,
       on_getVersion W hv = Ok buildxVersion /\
       e = Exec "docker" (createArgs W (builderName inputs) inputs buildxVersion)) /\
    In (SetOutput "name" (Some (builderName inputs))) before /\
    In (SetBuilderName (builderName inputs)) before /\
    (commands_resolve W [] (cleanup_phase W) ->
     exists logs rm,
       on_getExecOutput W (logs ++ [StartGroup "Removing builder"])
         "docker" ["buildx"; "rm"; builderName inputs] = Ok rm /\
       cleanup_phase W =
         logs ++ commandStep W "Removing builder"
                   ["buildx"; "rm"; builderName inputs] rm).
Proof.
  intros Hi before e after Hphase Hcr.
  assert (Hin : In e (setup_phase W)).
  { rewrite Hphase. apply in_or_app. right. now left. }
  assert (Hsaved : In (SetOutput "name" (Some (builderName inputs))) before /\
                   In (SetBuilderName (builderName inputs)) before).
  { assert (Hcase : forall t r after',
              setup W [] = (t, r) -> t = before ++ e :: after' ->
              In (SetOutput "name" (Some (builderName inputs))) before /\
              In (SetBuilderName (builderName inputs)) before).
    { intros t r after' Hs Ht.
      destruct (name_saved_before_creation _ _ _ _ Hs _ _ _ Ht Hcr)
        as (inputs' & Hi' & Ho & Hn).
      rewrite Hi in Hi'. injection Hi' as <-. auto. }
    destruct (setup_phase_cases W) as [Hs | (t & msg & Hs & Ht)].
    - exact (Hcase _ _ _ Hs Hphase).
    - rewrite Ht in Hphase.
      destruct (split_before_last _ _ _ _ _ Hphase) as (after' & Ht' & _).
      + intros ->. discriminate.
      + exact (Hcase _ _ _ Hs Ht'). }
  split.
  { pose proof (run_commands_built W []) as Hall. rewrite Forall_forall in Hall.
    destruct (Hall e Hin (or_introl Hcr)) as (inputs' & hv & v & Hi' & _ & Hv & He & _).
    rewrite Hi in Hi'. injection Hi' as <-. exists hv, v. auto. }
  split; [apply Hsaved |]. split; [apply Hsaved |].
  intros Hres.
  pose proof (run_saves_input_name W inputs Hi []) as Hnames.
  destruct (fold_save_builderName (builderName inputs) (setup_phase W)
              stateHelper.initial Hnames) as [Hyes _].
  assert (Hn : stateHelper.builderName (stateHelper.persisted (setup_phase W))
               = builderName inputs).
  { apply Hyes. rewrite Hphase. apply in_or_app. left. apply Hsaved. }
  assert (Hrd : removalDue (stateHelper.persisted (setup_phase W)) = true).
  { unfold removalDue. now rewrite Hn, builderName_nonempty. }
  rewrite cleanup_phase_unfold in *.
  destruct (cleanup_when_resolved W _ [] Hres) as (logs & rm & _ & Hr & Heq).
  exists (logsStep W (stateHelper.persisted (setup_phase W)) logs), rm.
  split.
  - rewrite <- Hn. exact (Hr Hrd).
  - rewrite Heq. cbn [fst]. unfold removeStep. now rewrite Hrd, Hn.
Qed.

Lemma created_builder_is_removed_witness :
  on_getInputs broken_world = Ok (sample_inputs "docker-container" "tcp://10.0.0.7:2375" "") /\
  ~ completes broken_world /\
  commands_resolve broken_world [] (cleanup_phase broken_world) /\
  exists before,
    In (SetBuilderName "builder-ci") before /\
    exists logs rm,
      on_getExecOutput broken_world (logs ++ [StartGroup "Removing builder"])
        "docker" ["buildx"; "rm"; "builder-ci"] = Ok rm /\
      cleanup_phase broken_world =
        logs ++ commandStep broken_world "Removing builder"
                  ["buildx"; "rm"; "builder-ci"] rm.
Proof.
  assert (Hres : commands_resolve broken_world [] (cleanup_phase broken_world)).
  { intros before c args after _. exists silent. reflexivity. }
  split; [reflexivity |]. split; [discriminate |]. split; [exact Hres |].
  exists (firstn 10 (setup_phase broken_world)).
  destruct (created_builder_is_removed broken_world
              (sample_inputs "docker-container" "tcp://10.0.0.7:2375" "") eq_refl
              (firstn 10 (setup_phase broken_world))
              (Exec "docker"
                 (createArgs broken_world "builder-ci"
                    (sample_inputs "docker-container" "tcp://10.0.0.7:2375" "") "0.4.0"))
              (skipn 11 (setup_phase broken_world)))
    as (_ & _ & Hsaved & Hrm).
  - reflexivity.
  - reflexivity.
  - split; [exact Hsaved | exact (Hrm Hres)].
Defined.

(** ** A setup that fails *)

Lemma provision_no_debug W inputs :
  emits (fun e => is_debug_save e = false) (provision W inputs).
Proof. unfold provision. unfold_calls. emits_tac; reflexivity. Qed.

Lemma setup_throw_no_debug W h t msg :
  setup W h = (t, Throw msg) -> Forall (fun e => is_debug_save e = false) t.
Proof.
  unfold setup. unfold_calls. intros H. inv_action H.
  all: repeat match goal with
    | Hp : provision ?W0 ?i ?h0 = _ |- _ =>
        let Hf := fresh "Hf" in
        pose proof (provision_no_debug W0 i h0) as Hf;
        rewrite Hp in Hf; cbn [fst] in Hf; clear Hp
    end.
  all: repeat (apply Forall_app; split); try assumption;
       repeat constructor.
Qed.

Lemma fold_save_IsDebug t : forall st,
  Forall (fun e => is_debug_save e = false) t ->
  stateHelper.IsDebug (fold_left stateHelper.save t st) = stateHelper.IsDebug st.
Proof.
  induction t as [| e t IH]; intros st Hall; [reflexivity |].
  inversion Hall as [| ? ? He Ht]; subst. cbn [fold_left]. rewrite IH by assumption.
  destruct e; try reflexivity. discriminate.
Qed.

(** X4. A setup that fails, at whatever call, has saved no debug flag;
    so the cleanup phase of that job fetches no container logs, even when
    the caller debugs. *)
Theorem failed_setup_fetches_no_logs (W : World) :
  ~ completes W ->
  stateHelper.IsDebug (stateHelper.persisted (setup_phase W)) = false /\
  Forall (fun e => is_logs e = false) (cleanup_phase W).
Proof.
  intros Hnot.
  assert (Hd : stateHelper.IsDebug (stateHelper.persisted (setup_phase W)) = false).
  { destruct (setup_phase_cases W) as [Hs | (t & msg & Hs & Ht)].
    - exfalso. apply Hnot. unfold completes. now rewrite Hs.
    - unfold stateHelper.persisted. cbn [stateHelper.IsDebug].
      rewrite fold_save_IsDebug; [reflexivity |].
      rewrite Ht. apply Forall_app. split.
      + exact (setup_throw_no_debug _ _ _ _ Hs).
      + repeat constructor. }
  split; [exact Hd |].
  apply Forall_forall. intros e Hin.
  destruct (is_logs e) eqn:Hl; [exfalso | reflexivity].
  rewrite cleanup_phase_unfold in Hin.
  pose proof (cleanup_logs_only_when W (stateHelper.persisted (setup_phase W)) [])
    as Hall.
  rewrite Forall_forall in Hall. destruct (Hall e Hin Hl) as (Htrue & _).
  rewrite Hd in Htrue. discriminate.
Qed.

Lemma failed_setup_fetches_no_logs_witness :
  ~ completes broken_world /\
  stateHelper.IsDebug (stateHelper.persisted (setup_phase broken_world)) = false /\
  Forall (fun e => is_logs e = false) (cleanup_phase broken_world).
Proof.
  assert (H : ~ completes broken_world) by discriminate.
  split; [exact H |]. exact (failed_setup_fetches_no_logs broken_world H).
Defined.

(** ** Running an action forward *)

Lemma bind_emit {B : Type} e (f : unit -> M B) h :
  bind (emit e) f h = (e :: fst (f tt (h ++ [e])), snd (f tt (h ++ [e]))).
Proof. unfold bind, emit. destruct (f tt (h ++ [e])). reflexivity. Qed.

Lemma bind_ask_throw {A B : Type} e (answer : trace -> result A) (f : A -> M B) h msg :
  answer h = Throw msg -> bind (ask e answer) f h = ([e], Throw msg).
Proof. intros H. unfold bind, ask. now rewrite H. Qed.

Lemma bind_ask_ok {A B : Type} e (answer : trace -> result A) (f : A -> M B) h a :
  answer h = Ok a ->
  bind (ask e answer) f h = (e :: fst (f a (h ++ [e])), snd (f a (h ++ [e]))).
Proof.
  intros H. unfold bind, ask. rewrite H. destruct (f a (h ++ [e])). reflexivity.
Qed.

(** ** The docker preflight *)

(** X5. A run begins by asking docker for its version and its info.  If
    the first command fails, or the second, the run reports that error
    and has done nothing else: no input is read, nothing is installed, and
    no output or state is written. *)
Theorem docker_preflight (W : World) (h : trace) :
  (forall msg,
     on_exec W (h ++ [StartGroup "Docker info"]) "docker" ["version"] = Throw msg ->
     run W h =
       ([StartGroup "Docker info"; Exec "docker" ["version"]; SetFailed msg], Ok tt)) /\
  (forall msg,
     on_exec W (h ++ [StartGroup "Docker info"]) "docker" ["version"] = Ok tt ->
     on_exec W ((h ++ [StartGroup "Docker info"]) ++ [Exec "docker" ["version"]])
       "docker" ["info"] = Throw msg ->
     run W h =
       ([StartGroup "Docker info"; Exec "docker" ["version"];
         Exec "docker" ["info"]; SetFailed msg], Ok tt)).
Proof.
  split.
  - intros msg Hv. rewrite run_unfold. unfold setup. unfold_calls.
    rewrite bind_emit.
    rewrite (bind_ask_throw _ (fun h0 => on_exec W h0 "docker" ["version"]) _ _ msg Hv).
    reflexivity.
  - intros msg Hv Hi. rewrite run_unfold. unfold setup. unfold_calls.
    rewrite bind_emit.
    rewrite (bind_ask_ok _ (fun h0 => on_exec W h0 "docker" ["version"]) _ _ tt Hv).
    rewrite (bind_ask_throw _ (fun h0 => on_exec W h0 "docker" ["info"]) _ _ msg Hi).
    reflexivity.
Qed.

Lemma docker_preflight_witness :
  on_exec (without_docker ci_world "docker: command not found")
    ([] ++ [StartGroup "Docker info"]) "docker" ["version"]
  = Throw "docker: command not found" /\
  run (without_docker ci_world "docker: command not found") [] =
    ([StartGroup "Docker info"; Exec "docker" ["version"];
      SetFailed "docker: command not found"], Ok tt).
Proof.
  split; [reflexivity |].
  apply (proj1 (docker_preflight (without_docker ci_world "docker: command not found") [])).
  reflexivity.
Defined.

(** ** Registering buildx as the default builder *)

Lemma createArgs_not_install W n i v : createArgs W n i v <> ["buildx"; "install"].
Proof. rewrite createArgs_shape. cbn [app]. discriminate. Qed.

Lemma bootstrapArgs_not_install W n v : bootstrapArgs W n v <> ["buildx"; "install"].
Proof.
  unfold bootstrapArgs, push. destruct (on_satisfies W v ">=0.4.0"); discriminate.
Qed.

Lemma run_installs_when_asked W inputs :
  on_getInputs W = Ok inputs ->
  emits (fun e => e = Exec "docker" ["buildx"; "install"] ->
                  context.install inputs = true)
        (run W).
Proof.
  intros Hi.
  apply emits_try_catch; [| intros msg; apply emits_emit; discriminate].
  unfold setup, provision. unfold_calls. emits_tac.
  all: repeat match goal with
    | H : snd (ask GetInputs _ _) = Ok _ |- _ =>
        cbn [snd ask] in H; rewrite Hi in H; injection H as <-
    end.
  all: try (intros [=]; fail).
  - intros [= E]. exfalso. exact (createArgs_not_install _ _ _ _ E).
  - intros [= E]. exfalso. exact (bootstrapArgs_not_install _ _ _ E).
  - intros _. assumption.
Qed.

(** X6. [docker buildx install] is run only when the [install] input is
    set, and a setup that completes with that input set has run it, once
    the builder is created and booted and before it is inspected. *)
Theorem install_as_default (W : World) (inputs : context.Inputs) :
  on_getInputs W = Ok inputs ->
  (forall h, In (Exec "docker" ["buildx"; "install"]) (fst (run W h)) ->
     context.install inputs = true) /\
  (context.install inputs = true -> completes W ->
   exists before after buildxVersion,
     setup_phase W =
       before
         ++ createBootSteps W inputs buildxVersion
         ++ [StartGroup "Setting buildx as default builder";
             Exec "docker" ["buildx"; "install"];
             EndGroup;
             StartGroup "Inspect builder";
             Inspect (builderName inputs)]
         ++ after).
Proof.
  intros Hi. split.
  - intros h Hin. pose proof (run_installs_when_asked W inputs Hi h) as Hall.
    rewrite Forall_forall in Hall. exact (Hall _ Hin eq_refl).
  - intros Hinst Hc. apply completes_trace in Hc.
    destruct (setup_completed _ _ _ _ Hc)
      as (inputs' & tp & v & b & k & Hi' & _ & _ & _ & Ht).
    rewrite Hi in Hi'. injection Hi' as <-.
    rewrite Ht. unfold completedSteps, installSteps, inspectSteps. rewrite Hinst.
    exists (preflightSteps ++ tp
              ++ [GetVersion; SetOutput "name" (Some (builderName inputs));
                  SetBuilderName (builderName inputs)]).
    eexists. exists v.
    repeat (rewrite <- app_assoc || cbn [app]). reflexivity.
Qed.

Lemma install_as_default_witness :
  on_getInputs installing_world = Ok installing_inputs /\
  context.install installing_inputs = true /\
  completes installing_world /\
  In (Exec "docker" ["buildx"; "install"]) (fst (run installing_world [])) /\
  exists before after buildxVersion,
    setup_phase installing_world =
      before
        ++ createBootSteps installing_world installing_inputs buildxVersion
        ++ [StartGroup "Setting buildx as default builder";
            Exec "docker" ["buildx"; "install"];
            EndGroup;
            StartGroup "Inspect builder";
            Inspect (builderName installing_inputs)]
        ++ after.
Proof.
  split; [reflexivity |]. split; [reflexivity |]. split; [reflexivity |].
  split; [vm_compute; tauto |].
  apply (proj2 (install_as_default installing_world installing_inputs eq_refl));
    reflexivity.
Defined.

(** ** What provisioning calls *)

Lemma dockerConfigHome_configHome W :
  dockerConfigHome W = configHome (on_DOCKER_CONFIG W) (on_home_docker W).
Proof.
  unfold dockerConfigHome, configHome, truthy.
  destruct (on_DOCKER_CONFIG W) as [d |]; [| reflexivity].
  destruct (d =? ""); reflexivity.
Qed.

(** X7. Whatever a run builds or installs is decided by the inputs alone.
    It builds only the requested version, and only if that is a valid
    URL; it installs only when it is not, and then the requested version,
    or "latest" when none is requested, never an empty version; it looks
    for an installed binary only when the version is no URL.  The
    directory it installs into is DOCKER_CONFIG if that is set and not
    empty, and the [.docker] directory of the home otherwise. *)
Theorem provisioning_calls (W : World) (inputs : context.Inputs) :
  on_getInputs W = Ok inputs ->
  forall h, Forall (provisioning_call W inputs) (fst (run W h)).
Proof.
  intros Hi.
  apply emits_try_catch; [| intros msg; apply emits_emit; exact I].
  unfold setup, provision. unfold_calls. emits_tac.
  all: repeat match goal with
    | H : snd (ask GetInputs _ _) = Ok _ |- _ =>
        cbn [snd ask] in H; rewrite Hi in H; injection H as <-
    end.
  all: try exact I.
  all: cbn [provisioning_call]; rewrite ?dockerConfigHome_configHome.
  - repeat split; assumption.
  - assumption.
  - unfold truthy. destruct (context.version inputs =? "") eqn:Hv; cbn [negb].
    + repeat split; [assumption | discriminate].
    + repeat split; [assumption |]. intros E. rewrite E in Hv. discriminate.
Qed.

Lemma provisioning_calls_witness :
  on_getInputs docker_world = Ok docker_inputs /\
  Forall (provisioning_call docker_world docker_inputs) (fst (run docker_world [])).
Proof.
  split; [reflexivity |].
  apply (provisioning_calls docker_world docker_inputs). reflexivity.
Defined.

(** ** The two phases keep apart *)

(** X8. The entry point does one thing or the other.  Without the post
    flag it runs the setup, in which every command is run through
    [exec.exec], whose failure is fatal, and no warning is logged.  With
    the post flag it runs the cleanup, which only opens and closes
    groups, runs failure-ignoring commands and logs warnings: it reads no
    input, installs and inspects nothing, writes no output and no state,
    and never reports a failure. *)
Theorem phases_keep_apart (W : World) (st : stateHelper.State) (h : trace) :
  (stateHelper.IsPost st = false ->
   main W st h = run W h /\
   Forall (fun e => setup_event e = true) (fst (main W st h))) /\
  (stateHelper.IsPost st = true ->
   main W st h = cleanup W st h /\
   Forall (fun e => cleanup_event e = true) (fst (main W st h))).
Proof.
  unfold main. split; intros ->; cbn [negb]; (split; [reflexivity |]).
  - revert h. apply emits_try_catch; [| intros msg; apply emits_emit; reflexivity].
    unfold setup, provision. unfold_calls. emits_tac; reflexivity.
  - revert h. unfold cleanup, warnOnFailure. unfold_calls. emits_tac; reflexivity.
Qed.

Lemma phases_keep_apart_witness :
  stateHelper.IsPost (stateHelper.persisted (setup_phase ci_world)) = true /\
  Forall (fun e => cleanup_event e = true) (cleanup_phase ci_world) /\
  stateHelper.IsPost stateHelper.initial = false /\
  Forall (fun e => setup_event e = true) (setup_phase ci_world).
Proof.
  split; [reflexivity |]. split.
  - apply (proj2 (phases_keep_apart ci_world
                    (stateHelper.persisted (setup_phase ci_world)) [])).
    reflexivity.
  - split; [reflexivity |].
    apply (proj1 (phases_keep_apart ci_world stateHelper.initial [])). reflexivity.
Defined.

(** ** Log groups *)

Lemma bracketed_app t1 : forall t2,
  bracketed false t1 = true ->
  bracketed false (t1 ++ t2) = bracketed false t2.
Proof.
  assert (H : forall inside t2,
            bracketed inside t1 = true ->
            bracketed inside (t1 ++ t2) = bracketed false t2).
  { induction t1 as [| e t1 IH]; intros inside t2 Hb; cbn [app].
    - destruct inside; [discriminate | reflexivity].
    - destruct e; cbn [bracketed] in *; auto.
      + destruct inside; [discriminate |]. cbn [negb andb] in *. auto.
      + destruct inside; [| discriminate]. cbn [andb] in *. auto. }
  intros t2. apply H.
Qed.

Lemma commandStep_bracketed W title args res :
  bracketed false (commandStep W title args res) = true.
Proof.
  unfold commandStep, warning_of.
  destruct ((0 <? String.length (stderr res))%nat && negb (exitCode res =? 0)%Z);
    reflexivity.
Qed.

Lemma resolved_steps_bracketed W st logs rm :
  bracketed false (logsStep W st logs ++ removeStep W st rm) = true.
Proof.
  unfold logsStep, removeStep.
  destruct (logsDue st); destruct (removalDue st);
    rewrite ?bracketed_app by apply commandStep_bracketed;
    rewrite ?app_nil_r; cbn [app];
    first [apply commandStep_bracketed | reflexivity].
Qed.

Lemma provision_bracketed W inputs h t u :
  provision W inputs h = (t, Ok u) -> bracketed false t = true.
Proof.
  unfold provision. unfold_calls. intros H. inv_action H; reflexivity.
Qed.

Lemma provision_throw_bracketed W inputs h t msg :
  provision W inputs h = (t, Throw msg) ->
  exists pre e,
    t = pre ++ [e] /\ bracketed false t = outside_groups e.
Proof.
  unfold provision. unfold_calls. intros H. inv_action H.
  all: match goal with
    | |- exists pre e, ?l = _ /\ _ =>
        exists (removelast l), (last l EndGroup)
    end; split; reflexivity.
Qed.

(** The last event of a sequence of pieces. *)
Ltac last_piece l :=
  lazymatch l with
  | _ ++ ?b => last_piece b
  | [?e] => e
  end.

Lemma setup_throw_bracketed W h t msg :
  setup W h = (t, Throw msg) ->
  bracketed false t = outside_groups (last t EndGroup).
Proof.
  unfold setup. unfold_calls. intros H. inv_action H.
  all: repeat match goal with
    | Hp : provision _ _ _ = (?tp, Ok _) |- _ =>
        apply provision_bracketed in Hp
    | Hp : provision _ _ _ = (?tp, Throw _) |- _ =>
        apply provision_throw_bracketed in Hp;
        let pre := fresh "pre" in
        let e := fresh "e" in
        let Hb := fresh "Hb" in
        destruct Hp as (pre & e & -> & Hb)
    end.
  all: match goal with
    | |- _ = outside_groups (last ?l ?d) =>
        let e := last_piece l in
        let E := fresh "E" in
        assert (E : last l d = e) by (rewrite ?app_assoc; apply last_last);
        rewrite E; clear E
    end.
  all: cbn [app bracketed negb andb].
  all: repeat match goal with
    | Hp : bracketed false ?tp = true |- context [bracketed false (?tp ++ ?r)] =>
        rewrite (bracketed_app tp r Hp)
    end.
  all: cbn [app bracketed negb andb outside_groups]; try reflexivity.
  all: assumption.
Qed.

(** X9. Log groups are well bracketed: a cleanup whose commands resolve,
    and a setup that completes, open and close their groups in turn,
    never nest them and leave none open.  A cleanup that throws, which it
    does when one of its commands rejects, leaves the group of that
    command open.  A setup that fails leaves a group open, unless the
    call that failed is one of the three made outside of any group: the
    reading of the inputs, the search for an installed binary, or the
    reading of its version. *)
Theorem groups_are_bracketed (W : World) :
  (forall st h,
     (commands_resolve W h (fst (cleanup W st h)) ->
      bracketed false (fst (cleanup W st h)) = true) /\
     (forall msg,
        snd (cleanup W st h) = Throw msg ->
        bracketed false (fst (cleanup W st h)) = false)) /\
  (completes W -> bracketed false (setup_phase W) = true) /\
  (~ completes W ->
   bracketed false (setup_phase W) = outside_groups (failing_call (setup_phase W))).
Proof.
  split; [| split].
  - intros st h. split.
    + intros Hres.
      destruct (cleanup_when_resolved W st h Hres) as (logs & rm & _ & _ & ->).
      apply resolved_steps_bracketed.
    + intros msg Hthrow.
      destruct (cleanup W st h) as [t r] eqn:Hcl. cbn [fst snd] in *. subst r.
      destruct (cleanup_rejected _ _ _ _ _ Hcl)
        as (before & title & args & -> & _ & [-> | (logs & Hld & _ & ->)]).
      * reflexivity.
      * unfold logsStep. rewrite Hld.
        rewrite bracketed_app by apply commandStep_bracketed. reflexivity.
  - intros Hc. apply completes_trace in Hc.
    destruct (setup_completed _ _ _ _ Hc)
      as (inputs & tp & v & b & k & _ & Hp & _ & _ & ->).
    apply provision_bracketed in Hp.
    unfold completedSteps.
    rewrite (bracketed_app preflightSteps) by reflexivity.
    rewrite (bracketed_app tp) by exact Hp.
    unfold createBootSteps, installSteps, inspectSteps, buildkitSteps, debugSaves.
    destruct (negb (context.driver inputs =? "docker"));
      destruct (context.install inputs);
      destruct (context.driver inputs =? "docker-container");
      destruct (debugRequested W b); reflexivity.
  - intros Hnot.
    destruct (setup_phase_cases W) as [Hs | (t & msg & Hs & Ht)].
    + exfalso. apply Hnot. unfold completes. now rewrite Hs.
    + rewrite Ht. unfold failing_call. rewrite removelast_last.
      rewrite <- (setup_throw_bracketed _ _ _ _ Hs).
      clear. generalize false.
      induction t as [| e t IH]; intros inside; cbn [app bracketed].
      * reflexivity.
      * destruct e; rewrite ?IH; reflexivity.
Qed.

Lemma groups_are_bracketed_witness :
  (completes ci_world /\ bracketed false (setup_phase ci_world) = true) /\
  (~ completes broken_world /\
   failing_call (setup_phase broken_world)
   = GetBuildKitVersion "buildx_buildkit_builder-ci0" /\
   bracketed false (setup_phase broken_world) = false) /\
  (commands_resolve ci_world [] (cleanup_phase ci_world) /\
   bracketed false (cleanup_phase ci_world) = true) /\
  (snd (cleanup stranded_world
          (stateHelper.persisted (setup_phase stranded_world)) [])
   = Throw "Unable to locate executable file: docker" /\
   bracketed false (cleanup_phase stranded_world) = false).
Proof.
  split; [| split; [| split]].
  - split; [reflexivity |].
    apply (proj1 (proj2 (groups_are_bracketed ci_world))). reflexivity.
  - assert (H : ~ completes broken_world) by discriminate.
    split; [exact H |]. split; [reflexivity |].
    exact (proj2 (proj2 (groups_are_bracketed broken_world)) H).
  - assert (H : commands_resolve ci_world [] (cleanup_phase ci_world)).
    { intros before c args after _. exists silent. reflexivity. }
    split; [exact H |].
    exact (proj1 (proj1 (groups_are_bracketed ci_world)
                    (stateHelper.persisted (setup_phase ci_world)) []) H).
  - split; [reflexivity |].
    exact (proj2 (proj1 (groups_are_bracketed stranded_world)
                    (stateHelper.persisted (setup_phase stranded_world)) [])
             "Unable to locate executable file: docker" eq_refl).
Defined.

(** ** A cleanup command that rejects *)

Lemma cleanup_safe W st : safe W (cleanup W st).
Proof. unfold cleanup, warnOnFailure. unfold_calls. safe_tac. Qed.

Lemma calm_commands_resolve W t : forall h, calm W h t -> commands_resolve W h t.
Proof.
  induction t as [| e t IH]; intros h Hc before c args after Heq.
  - destruct before; discriminate.
  - destruct Hc as (He & _ & Ht). destruct before as [| b before]; cbn [app] in Heq.
    + injection Heq as -> ->. rewrite app_nil_r. cbn [thrown] in He.
      destruct (on_getExecOutput W h c args) as [res | m]; [eauto | discriminate].
    + injection Heq as -> ->.
      destruct (IH _ Ht before c args after eq_refl) as [res Hr].
      exists res. rewrite <- app_assoc in Hr. exact Hr.
Qed.

(** X13. Only the exit code of a cleanup command is ignored, not its
    rejection.  Cleanup returns normally exactly when every command it
    issues resolves.  When a command rejects, cleanup throws the error
    of that command at once: the commands before it resolved, its group
    is left open, and nothing follows it.  In particular, when the logs
    command rejects, the removal command is never issued. *)
Theorem rejected_command_ends_cleanup (W : World) (st : stateHelper.State) (h : trace) :
  (snd (cleanup W st h) = Ok tt <->
   commands_resolve W h (fst (cleanup W st h))) /\
  (forall msg,
     snd (cleanup W st h) = Throw msg ->
     exists before title args,
       fst (cleanup W st h) =
         before ++ [StartGroup title; GetExecOutput "docker" args] /\
       on_getExecOutput W (h ++ before ++ [StartGroup title]) "docker" args
         = Throw msg /\
       commands_resolve W h before) /\
  (forall msg,
     logsDue st = true ->
     on_getExecOutput W (h ++ [StartGroup "BuildKit container logs"])
       "docker" ["logs"; stateHelper.containerName st] = Throw msg ->
     cleanup W st h =
       ([StartGroup "BuildKit container logs";
         GetExecOutput "docker" ["logs"; stateHelper.containerName st]],
        Throw msg)).
Proof.
  split; [| split].
  - split.
    + intros Hok. pose proof (cleanup_safe W st h) as Hs.
      destruct (cleanup W st h) as [t [[] | msg]]; cbn [fst snd] in *;
        [| discriminate].
      now apply calm_commands_resolve.
    + intros Hres.
      destruct (cleanup_when_resolved W st h Hres) as (logs & rm & _ & _ & ->).
      reflexivity.
  - intros msg Hthrow. pose proof (cleanup_safe W st h) as Hs.
    destruct (cleanup W st h) as [t r] eqn:Hcl. cbn [fst snd] in *. subst r.
    destruct (cleanup_rejected _ _ _ _ _ Hcl)
      as (before & title & args & Ht & Hrej & _).
    exists before, title, args. split; [exact Ht |]. split; [exact Hrej |].
    destruct Hs as (pre & e & Hpre & Hcalm & _).
    rewrite Ht in Hpre.
    change (before ++ [StartGroup title; GetExecOutput "docker" args])
      with (before ++ [StartGroup title] ++ [GetExecOutput "docker" args]) in Hpre.
    rewrite app_assoc in Hpre. apply app_inj_tail in Hpre. destruct Hpre as [<- _].
    apply calm_app in Hcalm. apply calm_commands_resolve. apply Hcalm.
  - intros msg Hld Hrej. rewrite cleanup_steps. unfold bind, groupStep.
    now rewrite Hld, Hrej.
Qed.

Lemma rejected_command_ends_cleanup_witness :
  completes stranded_world /\
  logsDue (stateHelper.persisted (setup_phase stranded_world)) = true /\
  removalDue (stateHelper.persisted (setup_phase stranded_world)) = true /\
  main stranded_world (stateHelper.persisted (setup_phase stranded_world)) [] =
    ([StartGroup "BuildKit container logs";
      GetExecOutput "docker" ["logs"; "buildx_buildkit_builder-ci0"]],
     Throw "Unable to locate executable file: docker") /\
  existsb is_removal (cleanup_phase stranded_world) = false.
Proof.
  split; [reflexivity |]. split; [reflexivity |]. split; [reflexivity |].
  split; [| reflexivity].
  apply (proj2 (proj2 (rejected_command_ends_cleanup stranded_world
                         (stateHelper.persisted (setup_phase stranded_world)) []))
           "Unable to locate executable file: docker");
    reflexivity.
Defined.

(** ** The earlier revision *)

Lemma peek_safe {A : Type} W (f : trace -> A) : safe W (peek f).
Proof. intros h. exact I. Qed.

Lemma earlier_setup_safe P W : safe W (earlier.setup P W).
Proof.
  unfold earlier.setup, earlier.provision, earlier.builderName, earlier.uuid.
  unfold_calls.
  repeat first [ apply peek_safe | progress safe_tac ].
Qed.

(** X10. The earlier revision of [run] never throws either.  Anywhere
    but on linux it reports "Only supported on linux platform" and does
    nothing else.  On linux its trace has one of two shapes: every call
    went well and no failure is reported; or a call threw, everything
    before it went well, and the report of the message of that error is
    the only thing that follows. *)
Theorem earlier_run_failure_policy (P : earlier.Host) (W : World) (h : trace) :
  snd (earlier.run P W h) = Ok tt /\
  (earlier.os_platform P <> "linux" ->
   earlier.run P W h = ([SetFailed "Only supported on linux platform"], Ok tt)) /\
  (earlier.os_platform P = "linux" ->
   calm W h (fst (earlier.run P W h)) \/
   exists pre e msg,
     fst (earlier.run P W h) = pre ++ [e; SetFailed msg] /\
     calm W h pre /\
     thrown W (h ++ pre) e = Some msg /\
     (forall m, ~ In (SetFailed m) (pre ++ [e]))).
Proof.
  unfold earlier.run, try_catch.
  destruct (String.eqb_spec (earlier.os_platform P) "linux") as [Hl | Hl]; cbn [negb].
  - pose proof (earlier_setup_safe P W h) as Hs.
    destruct (earlier.setup P W h) as [t [[] | msg]]; cbn [fst snd].
    + split; [reflexivity |]. split; [contradiction |]. intros _. left. exact Hs.
    + split; [reflexivity |]. split; [contradiction |]. intros _. right.
      destruct Hs as (pre & e & -> & Hpre & He & Hf).
      exists pre, e, msg. unfold core_setFailed, emit. rewrite <- app_assoc.
      repeat split; auto.
      intros m Hin. apply in_app_or in Hin. destruct Hin as [Hin | [Heq | []]].
      * eapply calm_no_failure; eauto.
      * subst e. discriminate.
  - split; [reflexivity |]. split; [reflexivity |]. contradiction.
Qed.

Lemma earlier_run_failure_policy_witness :
  earlier.os_platform earlier.darwin_host <> "linux" /\
  earlier.run earlier.darwin_host ci_world [] =
    ([SetFailed "Only supported on linux platform"], Ok tt).
Proof.
  split; [discriminate |].
  apply (proj1 (proj2 (earlier_run_failure_policy earlier.darwin_host ci_world []))).
  discriminate.
Defined.

Lemma earlier_setup_completed P W h t u :
  earlier.setup P W h = (t, Ok u) ->
  exists inputs provisioning buildxVersion name builder,
    on_getInputs W = Ok inputs /\
    earlier.provision W inputs (h ++ [GetInputs]) = (provisioning, Ok tt) /\
    on_getVersion W (h ++ [GetInputs] ++ provisioning) = Ok buildxVersion /\
    name =
      (if context.driver inputs =? "docker" then "default"
       else String.append "builder-"
              (earlier.uuid_v4 P
                 (h ++ [GetInputs] ++ provisioning
                    ++ [GetVersion; Info ("Using buildx " ++ buildxVersion)]))) /\
    (exists before after,
       t = before ++ Inspect name :: after /\
       on_inspect W (h ++ before) name = Ok builder) /\
    t = earlier.completedSteps W inputs provisioning buildxVersion name builder.
Proof.
  unfold earlier.setup, earlier.builderName, earlier.uuid. unfold_calls.
  intros H. inv_action H.
  all: try match goal with
    | Hx : negb true = true |- _ => discriminate Hx
    | Hx : negb false = false |- _ => discriminate Hx
    end.
  all: match goal with
    | Hi : on_getInputs _ = Ok ?i, Hp : earlier.provision _ _ _ = (?tp, Ok ?a),
      Hv : on_getVersion _ _ = Ok ?v, Hb : on_inspect _ _ ?n = Ok ?b |- _ =>
        exists i, tp, v, n, b; destruct a;
        rewrite <- ?app_assoc in Hp; rewrite <- ?app_assoc in Hv;
        split; [exact Hi |]; split; [exact Hp |]; split; [exact Hv |]
    end.
  all: split;
        [ match goal with
          | Hc : (context.driver _ =? "docker") = _ |- _ => rewrite Hc
          end;
          repeat (rewrite <- app_assoc || cbn [app]); try reflexivity
        | ].
  all: (split;
        [ match goal with
          | Hb : on_inspect _ _ _ = _ |- _ =>
          rewrite <- ?app_assoc in Hb;
          match type of Hb with
          | on_inspect _ (_ ++ ?before) _ = _ =>
              exists before; eexists;
              split; [| rewrite <- ?app_assoc; exact Hb];
              repeat (rewrite <- app_assoc || cbn [app]); reflexivity
          end end
        | ]).
  all: unfold earlier.completedSteps, earlier.createBootSteps, installSteps,
         earlier.inspectSteps, containerSaves, debugSaves.
  all: repeat match goal with
    | Hc : (?c =? ?d) = _ |- context [?c =? ?d] => rewrite Hc
    | Hc : ?c = _ |- context [if ?c then _ else _] => rewrite Hc
    end.
  all: cbn [negb].
  all: repeat (rewrite <- app_assoc || cbn [app]); reflexivity.
Qed.

Lemma earlier_run_linux P W h :
  earlier.os_platform P = "linux" ->
  earlier.run P W h =
  match earlier.setup P W h with
  | (t, Ok u) => (t, Ok u)
  | (t, Throw msg) => (t ++ [SetFailed msg], Ok tt)
  end.
Proof.
  intros Hl. unfold earlier.run, try_catch. rewrite Hl.
  replace (negb ("linux" =? "linux")) with false by reflexivity.
  destruct (earlier.setup P W h) as [t [u | msg]]; reflexivity.
Qed.

(** X11. A setup of the earlier revision that completes has done exactly
    this, in this order: the reading of the inputs, the installation of
    buildx if it is missing or a version is asked for, the reading and
    the logging of its version, the report and the saving of the builder
    name, the creation and the boot of the builder unless the driver is
    docker, the registration as default builder if asked for, the
    inspection and its five outputs, the saving of the container name for
    the docker-container driver, and the saving of the debug flag if
    debugging is requested.  The builder name is "default" for the docker
    driver and otherwise "builder-" followed by the uuid drawn once the
    version is logged; the same name is reported, saved, created, booted
    and inspected. *)
Theorem earlier_completed_setup_steps (P : earlier.Host) (W : World)
    (h t : trace) :
  earlier.os_platform P = "linux" ->
  earlier.run P W h = (t, Ok tt) ->
  (forall m, ~ In (SetFailed m) t) ->
  exists inputs provisioning buildxVersion name builder,
    on_getInputs W = Ok inputs /\
    earlier.provision W inputs (h ++ [GetInputs]) = (provisioning, Ok tt) /\
    on_getVersion W (h ++ [GetInputs] ++ provisioning) = Ok buildxVersion /\
    name =
      (if context.driver inputs =? "docker" then "default"
       else String.append "builder-"
              (earlier.uuid_v4 P
                 (h ++ [GetInputs] ++ provisioning
                    ++ [GetVersion; Info ("Using buildx " ++ buildxVersion)]))) /\
    (exists before after,
       t = before ++ Inspect name :: after /\
       on_inspect W (h ++ before) name = Ok builder) /\
    t = earlier.completedSteps W inputs provisioning buildxVersion name builder.
Proof.
  intros Hl Hrun Hok. rewrite (earlier_run_linux _ _ _ Hl) in Hrun.
  destruct (earlier.setup P W h) as [t' [[] | msg]] eqn:Hs.
  - assert (t' = t) by congruence. subst t'.
    exact (earlier_setup_completed _ _ _ _ _ Hs).
  - exfalso.
    assert (t' ++ [SetFailed msg] = t) by congruence. subst t.
    apply (Hok msg). apply in_or_app. right. now left.
Qed.

Lemma earlier_completed_setup_steps_witness :
  earlier.os_platform earlier.linux_host = "linux" /\
  exists inputs provisioning buildxVersion name builder,
    on_getInputs ci_world = Ok inputs /\
    earlier.provision ci_world inputs ([] ++ [GetInputs]) = (provisioning, Ok tt) /\
    on_getVersion ci_world ([] ++ [GetInputs] ++ provisioning) = Ok buildxVersion /\
    name =
      (if context.driver inputs =? "docker" then "default"
       else String.append "builder-"
              (earlier.uuid_v4 earlier.linux_host
                 ([] ++ [GetInputs] ++ provisioning
                    ++ [GetVersion; Info ("Using buildx " ++ buildxVersion)]))) /\
    (exists before after,
       fst (earlier.run earlier.linux_host ci_world [])
       = before ++ Inspect name :: after /\
       on_inspect ci_world ([] ++ before) name = Ok builder) /\
    fst (earlier.run earlier.linux_host ci_world [])
    = earlier.completedSteps ci_world inputs provisioning buildxVersion name builder.
Proof.
  split; [reflexivity |].
  apply (earlier_completed_setup_steps earlier.linux_host ci_world []
           (fst (earlier.run earlier.linux_host ci_world []))).
  - reflexivity.
  - reflexivity.
  - intros m Hin. vm_compute in Hin.
    repeat (destruct Hin as [Hin | Hin]; [discriminate Hin |]). exact Hin.
Defined.

(** ** What a run writes, whether it completes or not *)

Lemma setup_throw_writes W h t msg :
  setup W h = (t, Throw msg) ->
  output_keys_allowed (map fst (outputs t)) = true /\
  saves_in_order (saves t) = true.
Proof.
  unfold setup. unfold_calls. intros H. inv_action H.
  all: repeat match goal with
    | Hp : provision ?W0 ?i ?h0 = _ |- _ =>
        let Hf := fresh "Hf" in
        pose proof (provision_plain W0 i h0) as Hf;
        rewrite Hp in Hf; cbn [fst] in Hf; clear Hp
    end.
  all: rewrite ?outputs_app, ?saves_app.
  all: repeat match goal with
    | Hf : Forall plain ?tp |- _ =>
        rewrite ?(plain_outputs tp Hf), ?(plain_saves tp Hf); clear Hf
    end.
  all: split; reflexivity.
Qed.

(** X12. Outputs and state are never written piecemeal.  Whatever
    happens, the outputs of a run are none, or the name alone, or the
    name followed by the five outputs of the inspection, which are
    written all or none; and the state is saved in the order builder
    name, container name, debug flag, each at most once and none without
    the builder name. *)
Theorem writes_are_ordered (W : World) (h : trace) :
  output_keys_allowed (map fst (outputs (fst (run W h)))) = true /\
  saves_in_order (saves (fst (run W h))) = true.
Proof.
  rewrite run_unfold. destruct (setup W h) as [t [u | msg]] eqn:Hs; cbn [fst].
  - destruct (setup_success _ _ _ _ Hs)
      as (inputs & builder & _ & _ & _ & _ & _ & Ho & Hsv & _).
    rewrite Ho, Hsv. split; [reflexivity |].
    unfold containerSaves, debugSaves.
    destruct (context.driver inputs =? "docker-container");
      destruct (debugRequested W builder); reflexivity.
  - rewrite outputs_app, saves_app. cbn [outputs saves flat_map filter is_save].
    rewrite !app_nil_r. exact (setup_throw_writes _ _ _ _ Hs).
Qed.
